(** * The client bootstrap preload script

    A shallow embedding of the inline script of the layout template
    (src/unnamed/part_002, lines 9-66): the function [__preloadData], its two
    inner functions [promiseRequest] and [makeUrl], and the top-level
    [try { __preloadData(); } catch (_) {}].

    The script runs in a browser page.  Its inputs are the global
    [window.__initialData] (plain data written by the server) and, later, the
    load/error events of the three [XMLHttpRequest] objects it creates.  Its
    outputs are the global [window.__sentry_preload], the requests handed to
    the network, and the states of the three promises.

    Of the browser, the embedding has what the script calls, as the
    standards describe it: [new Promise], whose executor may throw; the
    methods and the two handlers of [XMLHttpRequest], of which [open]
    refuses a URL that does not parse and [setRequestHeader] trims the value
    it is given and refuses one that is no header value; and [JSON.parse]. *)

From stdpp Require Import gmap strings list fin_maps.
From Stdlib Require Import ZArith Ascii.

Set Warnings "-register-all".
Set Default Proof Using "Type".
Open Scope string_scope.
Open Scope list_scope.

(** ** JavaScript values

    [window.__initialData] is data: it holds no functions, and no object is
    reachable along two paths.  A number is kept as the text [Number::toString]
    gives for it (so [+0] and [-0] are both ["0"]); the script only tests a
    value for truth, compares it with [!==] and concatenates it to a string,
    and each of the three is a function of that text. *)

Inductive val : Type :=
  | VUndef
  | VNull
  | VBool (b : bool)
  | VNum (repr : string)
  | VStr (s : string)
  | VArr (xs : list val)
  | VObj (fs : gmap string val).

Inductive exn : Type :=
  | TypeError
  | SyntaxError
  | InvalidStateError.

(** A completion: a value, or a thrown exception. *)
Inductive res (A : Type) : Type :=
  | Ok (a : A)
  | Throw (e : exn).
Arguments Ok {A} a.
Arguments Throw {A} e.

#[global] Instance res_ret : MRet res := @Ok.
#[global] Instance res_bind : MBind res := fun A B f m =>
  match m with
  | Ok a => f a
  | Throw e => Throw e
  end.

(** ToBoolean. *)
Definition truthy (v : val) : bool :=
  match v with
  | VUndef | VNull => false
  | VBool b => b
  | VNum r => negb (bool_decide (r = "0") || bool_decide (r = "NaN"))
  | VStr s => negb (bool_decide (s = ""))
  | VArr _ | VObj _ => true
  end.

(** [v.k] for the property names the script reads ([user],
    [lastOrganization], [customerDomain], [subdomain], [links], [regionUrl],
    [sentryUrl], [initialTrace], [sentry_trace], [baggage]): none of them is a
    property of a string, a number, a boolean, an array or of
    [Object.prototype], so only an object's own field can answer. *)
Definition get (v : val) (k : string) : res val :=
  match v with
  | VUndef | VNull => Throw TypeError
  | VObj fs => Ok (default VUndef (fs !! k))
  | VBool _ | VNum _ | VStr _ | VArr _ => Ok VUndef
  end.

(** A chain of member accesses, [v.k1.k2...], evaluated left to right. *)
Fixpoint member (v : val) (ks : list string) : res val :=
  match ks with
  | [] => Ok v
  | k :: ks' => v' ← get v k; member v' ks'
  end.

(** The operator [!==]: two primitives of one type are compared by value
    ([NaN] differs from itself); values of different types differ, and so do
    two objects, which are different objects of the data. *)
Definition strict_eq (a b : val) : bool :=
  match a, b with
  | VUndef, VUndef | VNull, VNull => true
  | VBool x, VBool y => bool_decide (x = y)
  | VNum x, VNum y => bool_decide (x = y) && negb (bool_decide (x = "NaN"))
  | VStr x, VStr y => bool_decide (x = y)
  | _, _ => false
  end.

Definition strict_neq (a b : val) : bool := negb (strict_eq a b).

(** ToString of an operand of [+] whose other operand is a string.  An array
    goes through [Array.prototype.join]; an object answers
    ["[object Object]"] unless it has a field of its own named [toString]:
    that field holds data, not a function, and the conversion throws. *)
Fixpoint to_string (v : val) : res string :=
  match v with
  | VUndef => Ok "undefined"
  | VNull => Ok "null"
  | VBool true => Ok "true"
  | VBool false => Ok "false"
  | VNum r => Ok r
  | VStr s => Ok s
  | VArr xs =>
      (fix join (xs : list val) : res string :=
         match xs with
         | [] => Ok ""
         | x :: xs' =>
             s ← match x with
                 | VUndef | VNull => Ok ""
                 | _ => to_string x
                 end;
             r ← join xs';
             Ok (s +:+ (if xs' is [] then "" else ",") +:+ r)
         end) xs
  | VObj fs =>
      if bool_decide (is_Some (fs !! "toString")) then Throw TypeError
      else Ok "[object Object]"
  end.

(** ** [JSON.parse]

    The grammar of ECMA-404, as a scanner followed by a pushdown recogniser,
    both by structural recursion on their input.  The result is the syntax
    tree of the text, with numbers and strings kept as they are written: the
    script hands the parsed body on without looking inside it, and the value
    [JSON.parse] builds is a function of that tree. *)

Module JSON.

Inductive json : Type :=
  | JNull
  | JBool (b : bool)
  | JNumber (lexeme : string)
  | JString (raw : string)
  | JArray (xs : list json)
  | JObject (fs : list (string * json)).

Inductive token : Type :=
  | TLBrace | TRBrace | TLBrack | TRBrack | TColon | TComma
  | TString (raw : string)
  | TNumber (lexeme : string)
  | TTrue | TFalse | TNull.

(** Where the scanner is inside a number: an optional minus sign; a zero, or
    a digit from 1 to 9 followed by any digits; optionally a dot and one or
    more digits; optionally [e] or [E], an optional sign and one or more
    digits. *)
Inductive num_state : Type :=
  | NMinus | NZero | NInt | NDot | NFrac | NExp | NExpSign | NExpDigits.

Inductive mode : Type :=
  | MTop
  | MStr (acc : string)
  | MEsc (acc : string)
  | MHex (n : nat) (acc : string)
  | MNum (st : num_state) (acc : string)
  | MWord (rest : string) (t : token) .

Definition code (c : ascii) : N := N_of_ascii c.

(** The double quote, U+0022. *)
Definition dquote : ascii := Eval cbv in ascii_of_N 34.

Definition is_ws (c : ascii) : bool :=
  bool_decide (code c = 9%N) || bool_decide (code c = 10%N) ||
  bool_decide (code c = 13%N) || bool_decide (code c = 32%N).

Definition is_digit (c : ascii) : bool := (48 <=? code c)%N && (code c <=? 57)%N.

Definition is_hex (c : ascii) : bool :=
  is_digit c || ((65 <=? code c)%N && (code c <=? 70)%N)
             || ((97 <=? code c)%N && (code c <=? 102)%N).

Definition is_escape (c : ascii) : bool :=
  bool_decide (c ∈ [dquote; "\"; "/"; "b"; "f"; "n"; "r"; "t"]%char).

Definition accepting (st : num_state) : bool :=
  match st with
  | NZero | NInt | NFrac | NExpDigits => true
  | NMinus | NDot | NExp | NExpSign => false
  end.

Definition is_e (c : ascii) : bool := bool_decide (c = "e"%char) || bool_decide (c = "E"%char).
Definition is_sign (c : ascii) : bool := bool_decide (c = "+"%char) || bool_decide (c = "-"%char).
Definition is_dot (c : ascii) : bool := bool_decide (c = "."%char).

Definition num_step (st : num_state) (c : ascii) : option num_state :=
  match st with
  | NMinus =>
      if bool_decide (c = "0"%char) then Some NZero
      else if is_digit c then Some NInt else None
  | NZero =>
      if is_dot c then Some NDot else if is_e c then Some NExp else None
  | NInt =>
      if is_digit c then Some NInt
      else if is_dot c then Some NDot else if is_e c then Some NExp else None
  | NDot => if is_digit c then Some NFrac else None
  | NFrac =>
      if is_digit c then Some NFrac else if is_e c then Some NExp else None
  | NExp =>
      if is_sign c then Some NExpSign
      else if is_digit c then Some NExpDigits else None
  | NExpSign => if is_digit c then Some NExpDigits else None
  | NExpDigits => if is_digit c then Some NExpDigits else None
  end.

Definition snoc (s : string) (c : ascii) : string := s +:+ String c "".

(** One character read between two tokens: the mode it leads to and the
    token it completes, if any. *)
Definition top_step (c : ascii) : option (mode * list token) :=
  if is_ws c then Some (MTop, [])
  else if bool_decide (c = "{"%char) then Some (MTop, [TLBrace])
  else if bool_decide (c = "}"%char) then Some (MTop, [TRBrace])
  else if bool_decide (c = "["%char) then Some (MTop, [TLBrack])
  else if bool_decide (c = "]"%char) then Some (MTop, [TRBrack])
  else if bool_decide (c = ":"%char) then Some (MTop, [TColon])
  else if bool_decide (c = ","%char) then Some (MTop, [TComma])
  else if bool_decide (c = dquote) then Some (MStr "", [])
  else if bool_decide (c = "-"%char) then Some (MNum NMinus "-", [])
  else if bool_decide (c = "0"%char) then Some (MNum NZero "0", [])
  else if is_digit c then Some (MNum NInt (String c ""), [])
  else if bool_decide (c = "t"%char) then Some (MWord "rue" TTrue, [])
  else if bool_decide (c = "f"%char) then Some (MWord "alse" TFalse, [])
  else if bool_decide (c = "n"%char) then Some (MWord "ull" TNull, [])
  else None.

Definition step (m : mode) (c : ascii) : option (mode * list token) :=
  match m with
  | MTop => top_step c
  | MStr acc =>
      if bool_decide (c = dquote) then Some (MTop, [TString acc])
      else if bool_decide (c = "\"%char) then Some (MEsc (snoc acc c), [])
      else if (code c <? 32)%N then None
      else Some (MStr (snoc acc c), [])
  | MEsc acc =>
      if is_escape c then Some (MStr (snoc acc c), [])
      else if bool_decide (c = "u"%char) then Some (MHex 4 (snoc acc c), [])
      else None
  | MHex n acc =>
      if is_hex c then
        match n with
        | 0 | 1 => Some (MStr (snoc acc c), [])
        | S n' => Some (MHex n' (snoc acc c), [])
        end
      else None
  | MNum st acc =>
      match num_step st c with
      | Some st' => Some (MNum st' (snoc acc c), [])
      | None =>
          if accepting st then
            '(m', ts) ← top_step c; Some (m', TNumber acc :: ts)
          else None
      end
  | MWord rest t =>
      match rest with
      | String r rest' =>
          if bool_decide (c = r) then
            match rest' with
            | EmptyString => Some (MTop, [t])
            | _ => Some (MWord rest' t, [])
            end
          else None
      | EmptyString => None
      end
  end.

Fixpoint scan (m : mode) (s : string) : option (list token) :=
  match s with
  | EmptyString =>
      match m with
      | MTop => Some []
      | MNum st acc => if accepting st then Some [TNumber acc] else None
      | MStr _ | MEsc _ | MHex _ _ | MWord _ _ => None
      end
  | String c s' =>
      '(m', ts) ← step m c;
      rest ← scan m' s';
      Some (ts ++ rest)
  end.

(** The recogniser keeps the containers that are still open on a stack. *)
Inductive frame : Type :=
  | FArr (done : list json)
  | FObj (done : list (string * json))
  | FKey (done : list (string * json)) (key : string).

Inductive expect : Type :=
  | EValue          (* a value *)
  | EArrFirst       (* a value or "]" *)
  | EObjFirst       (* a key or "}" *)
  | EKey            (* a key *)
  | EColon          (* ":" *)
  | EAfter          (* "," or the bracket that closes the container *)
  | EDone (v : json).

(** A value is complete: it is the whole text, an element of the array on
    top of the stack, or the value of the pending key. *)
Definition complete (v : json) (stack : list frame) : option (expect * list frame) :=
  match stack with
  | [] => Some (EDone v, [])
  | FArr done :: stack' => Some (EAfter, FArr (done ++ [v]) :: stack')
  | FKey done k :: stack' => Some (EAfter, FObj (done ++ [(k, v)]) :: stack')
  | FObj _ :: _ => None
  end.

Definition value_start (t : token) (stack : list frame) : option (expect * list frame) :=
  match t with
  | TString s => complete (JString s) stack
  | TNumber n => complete (JNumber n) stack
  | TTrue => complete (JBool true) stack
  | TFalse => complete (JBool false) stack
  | TNull => complete JNull stack
  | TLBrack => Some (EArrFirst, FArr [] :: stack)
  | TLBrace => Some (EObjFirst, FObj [] :: stack)
  | TRBrace | TRBrack | TColon | TComma => None
  end.

Definition key_start (t : token) (stack : list frame) : option (expect * list frame) :=
  match t, stack with
  | TString k, FObj done :: stack' => Some (EColon, FKey done k :: stack')
  | _, _ => None
  end.

Definition close (t : token) (stack : list frame) : option (expect * list frame) :=
  match t, stack with
  | TRBrack, FArr done :: stack' => complete (JArray done) stack'
  | TRBrace, FObj done :: stack' => complete (JObject done) stack'
  | _, _ => None
  end.

Definition shift (e : expect) (stack : list frame) (t : token)
  : option (expect * list frame) :=
  match e with
  | EValue => value_start t stack
  | EArrFirst => if t is TRBrack then close t stack else value_start t stack
  | EObjFirst => if t is TRBrace then close t stack else key_start t stack
  | EKey => key_start t stack
  | EColon => if t is TColon then Some (EValue, stack) else None
  | EAfter =>
      match t, stack with
      | TComma, FArr _ :: _ => Some (EValue, stack)
      | TComma, FObj _ :: _ => Some (EKey, stack)
      | _, _ => close t stack
      end
  | EDone _ => None
  end.

Fixpoint recognise (e : expect) (stack : list frame) (ts : list token) : option json :=
  match ts with
  | [] => if e is EDone v then Some v else None
  | t :: ts' => '(e', stack') ← shift e stack t; recognise e' stack' ts'
  end.

(** [JSON.parse(text)]: the tree, or [None] where the call throws a
    [SyntaxError]. *)
Definition parse (text : string) : option json :=
  ts ← scan MTop text; recognise EValue [] ts.

End JSON.

(** ** Header values

    What [setRequestHeader] does with a value, after the conversion to a
    string: leading and trailing HTTP whitespace is removed, and the rest
    must hold no NUL, no CR and no LF.  A string of this development is a
    sequence of code units below 256, so the conversion to a byte string
    does not fail. *)

Definition byte (c : ascii) : N := N_of_ascii c.

(** HT, LF, CR and SP. *)
Definition http_whitespace (c : ascii) : bool :=
  bool_decide (byte c = 9%N) || bool_decide (byte c = 10%N) ||
  bool_decide (byte c = 13%N) || bool_decide (byte c = 32%N).

Fixpoint strip_leading (s : string) : string :=
  match s with
  | EmptyString => EmptyString
  | String c s' => if http_whitespace c then strip_leading s' else s
  end.

Fixpoint strip_trailing (s : string) : string :=
  match s with
  | EmptyString => EmptyString
  | String c s' =>
      match strip_trailing s' with
      | EmptyString => if http_whitespace c then EmptyString else String c EmptyString
      | r => String c r
      end
  end.

Definition normalize (s : string) : string := strip_trailing (strip_leading s).

Fixpoint is_header_value (s : string) : bool :=
  match s with
  | EmptyString => true
  | String c s' =>
      negb (bool_decide (byte c = 0%N) || bool_decide (byte c = 10%N)
            || bool_decide (byte c = 13%N))
      && is_header_value s'
  end.

(** The value [setRequestHeader] stores for the argument [v], or the
    exception it throws. *)
Definition header_value_of (v : val) : res string :=
  s ← to_string v;
  if is_header_value (normalize s) then Ok (normalize s) else Throw SyntaxError.

(** ** The browser's URL parser

    [open] parses its URL against the address of the page and throws where
    the parser fails.  The parser is not part of the sources; it is taken
    as a parameter, with the one fact about it that the script relies on.
    The parser of the URL standard fails only while it reads the scheme and
    the authority of a URL; in its path, query and fragment states it never
    does.  An authority ends at the first slash after its start, so in the
    URLs that [makeUrl] builds the authority, if there is one, ends before
    the last slash of [/api/0/organizations/]: what follows is path, query
    or fragment, and the three URLs of one page parse or fail together. *)

(** The three suffixes of lines 57-61, in the order of the calls. *)
Definition suffixes : list string :=
  [ "/?detailed=0";
    "/projects/?all_projects=1&collapse=latestDeploys&collapse=unusedFeatures";
    "/teams/" ].

Class Browser : Type := {
  url_parses : string → bool;
  url_parses_suffix : ∀ host slug suffix suffix',
    suffix ∈ suffixes → suffix' ∈ suffixes →
    url_parses (((host +:+ "/api/0/organizations/") +:+ slug) +:+ suffix)
    = url_parses (((host +:+ "/api/0/organizations/") +:+ slug) +:+ suffix')
}.

(** ** The page: globals, objects, transports and promises *)

(** What [xhr.send()] hands to the network.  [req_url] is the string that
    was given to [open], as the script built it: the browser resolves it
    against the address of the page. *)
Record request : Type := Request {
  req_method : string;
  req_url : string;
  req_headers : list (string * string);
  req_withCredentials : bool
}.

(** An [XMLHttpRequest] object.  [xhr_onload] and [xhr_onerror] hold the
    promise whose [resolve] and [reject] the installed handler closes over. *)
Record xhr : Type := Xhr {
  xhr_opened : option (string * string);
  xhr_headers : list (string * string);
  xhr_withCredentials : bool;
  xhr_onload : option nat;
  xhr_onerror : option nat;
  xhr_sent : bool
}.

(** The argument of [reject]: the array [[status, statusText]], nothing at
    all ([reject()], so [undefined]), or the exception thrown by the
    executor. *)
Inductive reason : Type :=
  | RStatus (status : Z) (statusText : string)
  | RNone
  | RExn (e : exn).

(** A promise; a fulfilled one holds the array
    [[JSON.parse(xhr.response), this.statusText, xhr]]. *)
Inductive promise : Type :=
  | Pending
  | Fulfilled (body : JSON.json) (statusText : string) (transport : nat)
  | Rejected (r : reason).

(** The value of a property of the object [preloadPromises]. *)
Inductive slot : Type :=
  | SVal (v : val)
  | SPromise (p : nat).

(** The state of the page.  Objects, transports and promises live in stores
    and are named by their index; [window.__sentry_preload] holds a reference,
    so a property added to [preloadPromises] after the assignment on line 51
    is seen through the global. *)
Record page : Type := Page {
  initialData : val;                  (* window.__initialData *)
  sentry_preload : option nat;        (* window.__sentry_preload *)
  objects : list (gmap string slot);
  xhrs : list xhr;
  promises : list promise;
  network : list request
}.

Definition with_sentry_preload (r : option nat) (σ : page) : page :=
  Page (initialData σ) r (objects σ) (xhrs σ) (promises σ) (network σ).
Definition with_objects (os : list (gmap string slot)) (σ : page) : page :=
  Page (initialData σ) (sentry_preload σ) os (xhrs σ) (promises σ) (network σ).
Definition with_xhrs (xs : list xhr) (σ : page) : page :=
  Page (initialData σ) (sentry_preload σ) (objects σ) xs (promises σ) (network σ).
Definition with_promises (ps : list promise) (σ : page) : page :=
  Page (initialData σ) (sentry_preload σ) (objects σ) (xhrs σ) ps (network σ).
Definition with_network (n : list request) (σ : page) : page :=
  Page (initialData σ) (sentry_preload σ) (objects σ) (xhrs σ) (promises σ) n.

(** The page as the script finds it. *)
Definition page_load (d : val) : page := Page d None [] [] [] [].

(** Statements: a completion and the page they leave, also when they throw. *)
Definition M (A : Type) : Type := page → res A * page.

#[global] Instance M_ret : MRet M := fun A a σ => (Ok a, σ).
#[global] Instance M_bind : MBind M := fun A B f m σ =>
  match m σ with
  | (Ok a, σ') => f a σ'
  | (Throw e, σ') => (Throw e, σ')
  end.

Definition lift {A} (r : res A) : M A := fun σ => (r, σ).
Definition modify (f : page → page) : M unit := fun σ => (Ok (), f σ).

(** [try { m } catch (e) { h }]. *)
Definition try_catch {A} (m : M A) (h : exn → M A) : M A := fun σ =>
  match m σ with
  | (Ok a, σ') => (Ok a, σ')
  | (Throw e, σ') => h e σ'
  end.

Definition window_initialData : M val := fun σ => (Ok (initialData σ), σ).

(** An object literal. *)
Definition new_object (o : gmap string slot) : M nat := fun σ =>
  (Ok (length (objects σ)), with_objects (objects σ ++ [o]) σ).

(** [r.k = v]. *)
Definition set_property (r : nat) (k : string) (v : slot) : M unit :=
  modify (fun σ => with_objects (alter (insert k v) r (objects σ)) σ).

Definition set_sentry_preload (r : nat) : M unit :=
  modify (with_sentry_preload (Some r)).

(** [resolve] and [reject]: a promise settles once. *)
Definition settle (p : nat) (s : promise) : M unit :=
  modify (fun σ =>
    match promises σ !! p with
    | Some Pending => with_promises (<[p := s]> (promises σ)) σ
    | _ => σ
    end).

(** [new Promise(executor)]: the executor runs at once; an exception it
    throws rejects the promise and goes no further. *)
Definition new_Promise (executor : nat → M unit) : M nat := fun σ =>
  let p := length (promises σ) in
  let σ1 := with_promises (promises σ ++ [Pending]) σ in
  match executor p σ1 with
  | (Ok _, σ2) => (Ok p, σ2)
  | (Throw e, σ2) => (Ok p, snd (settle p (Rejected (RExn e)) σ2))
  end.

Definition new_XMLHttpRequest : M nat := fun σ =>
  (Ok (length (xhrs σ)), with_xhrs (xhrs σ ++ [Xhr None [] false None None false]) σ).

Definition xhr_modify (x : nat) (f : xhr → xhr) : M unit :=
  modify (fun σ => with_xhrs (alter f x (xhrs σ)) σ).

Definition throw {A} (e : exn) : M A := fun σ => (Throw e, σ).

(** The transport [x], where it is opened and not yet sent: the state in
    which [setRequestHeader] and [send] may be called. *)
Definition xhr_ready (x : nat) : M xhr := fun σ =>
  match xhrs σ !! x with
  | Some r =>
      if bool_decide (is_Some (xhr_opened r)) && negb (xhr_sent r) then (Ok r, σ)
      else (Throw InvalidStateError, σ)
  | None => (Throw InvalidStateError, σ)
  end.

(** [xhr.open(method, url)] for a method that is allowed, as [GET] is: a
    URL that does not parse is a [SyntaxError], and the transport stays as
    it was; otherwise the transport is opened on the URL, with no header and
    not sent. *)
Definition xhr_open `{Browser} (x : nat) (method url : string) : M unit :=
  if url_parses url then
    xhr_modify x (fun r =>
      Xhr (Some (method, url)) [] (xhr_withCredentials r)
          (xhr_onload r) (xhr_onerror r) false)
  else throw SyntaxError.

(** [xhr.setRequestHeader(name, v)] for a name that is a valid header name
    and not a forbidden one, as [sentry-trace] and [baggage] are, and that
    was not set before: the value is converted, normalised and checked. *)
Definition xhr_setRequestHeader (x : nat) (name : string) (v : val) : M unit :=
  s ← lift (to_string v);
  xhr_ready x;;
  if is_header_value (normalize s) then
    xhr_modify x (fun r =>
      Xhr (xhr_opened r) (xhr_headers r ++ [(name, normalize s)]) (xhr_withCredentials r)
          (xhr_onload r) (xhr_onerror r) (xhr_sent r))
  else throw SyntaxError.

(** [xhr.withCredentials = b], which a transport that was sent refuses. *)
Definition xhr_set_withCredentials (x : nat) (b : bool) : M unit := fun σ =>
  match xhrs σ !! x with
  | Some r =>
      if xhr_sent r then (Throw InvalidStateError, σ)
      else
        xhr_modify x (fun r =>
          Xhr (xhr_opened r) (xhr_headers r) b (xhr_onload r) (xhr_onerror r) (xhr_sent r)) σ
  | None => (Throw InvalidStateError, σ)
  end.

Definition xhr_set_onload (x p : nat) : M unit :=
  xhr_modify x (fun r =>
    Xhr (xhr_opened r) (xhr_headers r) (xhr_withCredentials r)
        (Some p) (xhr_onerror r) (xhr_sent r)).

Definition xhr_set_onerror (x p : nat) : M unit :=
  xhr_modify x (fun r =>
    Xhr (xhr_opened r) (xhr_headers r) (xhr_withCredentials r)
        (xhr_onload r) (Some p) (xhr_sent r)).

(** [xhr.send()]: the request as configured so far goes to the network. *)
Definition xhr_send (x : nat) : M unit :=
  r ← xhr_ready x;
  match xhr_opened r with
  | Some (method, url) =>
      modify (fun σ =>
        with_network
          (network σ ++ [Request method url (xhr_headers r) (xhr_withCredentials r)])
          (with_xhrs (<[x := Xhr (xhr_opened r) (xhr_headers r) (xhr_withCredentials r)
                                 (xhr_onload r) (xhr_onerror r) true]> (xhrs σ)) σ))
  | None => throw InvalidStateError
  end.

(** ** The script *)

(** Lines 14-17: the local [slug]. *)
Definition slug_of (d : val) : res val :=
  slug ← member d ["lastOrganization"];
  if negb (truthy slug) then
    cd ← member d ["customerDomain"];
    if truthy cd then member d ["customerDomain"; "subdomain"] else Ok slug
  else Ok slug.

(** Lines 18-21: the local [host]. *)
Definition host_of (d : val) : res val :=
  links ← member d ["links"];
  if truthy links then
    r ← member d ["links"; "regionUrl"];
    s ← member d ["links"; "sentryUrl"];
    if strict_neq r s then member d ["links"; "regionUrl"] else Ok (VStr "")
  else Ok (VStr "").

(** Lines 46-48: [host + '/api/0/organizations/' + slug + suffix], where
    [host] and [slug] are the locals of the enclosing function. *)
Definition makeUrl (host slug : val) (suffix : string) : res string :=
  h ← to_string host;
  s ← to_string slug;
  Ok (((h +:+ "/api/0/organizations/") +:+ s) +:+ suffix).

(** Lines 23-44, up to the handlers, which are [onload] and [onerror]
    below. *)
Definition promiseRequest `{Browser} (url : string) : M nat :=
  new_Promise (fun p =>
    x ← new_XMLHttpRequest;
    xhr_open x "GET" url;;
    d ← window_initialData;
    sentry_trace ← lift (member d ["initialTrace"; "sentry_trace"]);
    xhr_setRequestHeader x "sentry-trace" sentry_trace;;
    d ← window_initialData;
    baggage ← lift (member d ["initialTrace"; "baggage"]);
    xhr_setRequestHeader x "baggage" baggage;;
    xhr_set_withCredentials x true;;
    xhr_set_onload x p;;
    xhr_set_onerror x p;;
    xhr_send x).

(** Lines 9-62. *)
Definition __preloadData `{Browser} : M unit :=
  d ← window_initialData;
  user ← lift (member d ["user"]);
  if negb (truthy user) then mret ()
  else
    slug ← lift (slug_of d);
    host ← lift (host_of d);
    preloadPromises ← new_object {[ "orgSlug" := SVal slug ]};
    set_sentry_preload preloadPromises;;
    if negb (truthy slug) then mret ()
    else
      url ← lift (makeUrl host slug "/?detailed=0");
      p ← promiseRequest url;
      set_property preloadPromises "organization" (SPromise p);;
      url ← lift (makeUrl host slug
        "/projects/?all_projects=1&collapse=latestDeploys&collapse=unusedFeatures");
      p ← promiseRequest url;
      set_property preloadPromises "projects" (SPromise p);;
      url ← lift (makeUrl host slug "/teams/");
      p ← promiseRequest url;
      set_property preloadPromises "teams" (SPromise p).

(** Lines 64-66: [try { __preloadData(); } catch (_) {}]. *)
Definition script `{Browser} : M unit := try_catch __preloadData (fun _ => mret ()).

(** ** The handlers *)

(** What a transport reports when it is done: [this.status],
    [this.statusText] and, on load, [xhr.response]. *)
Inductive event : Type :=
  | Loaded (status : Z) (statusText response : string)
  | Errored (status : Z) (statusText : string).

(** [JSON.parse(xhr.response)] as an expression. *)
Definition JSON_parse (text : string) : res JSON.json :=
  match JSON.parse text with
  | Some j => Ok j
  | None => Throw SyntaxError
  end.

(** Lines 30-38, the handler of transport [x] that settles promise [p]. *)
Definition onload (x p : nat) (status : Z) (statusText response : string) : M unit :=
  try_catch
    (if bool_decide (200 ≤ status)%Z && bool_decide (status < 300)%Z then
       body ← lift (JSON_parse response);
       settle p (Fulfilled body statusText x)
     else settle p (Rejected (RStatus status statusText)))
    (fun _ => settle p (Rejected RNone)).

(** Lines 39-41. *)
Definition onerror (p : nat) (status : Z) (statusText : string) : M unit :=
  settle p (Rejected (RStatus status statusText)).

(** The browser delivers an event of transport [x]: only a transport that
    was sent reports, and only an installed handler runs. *)
Definition dispatch (x : nat) (ev : event) (σ : page) : page :=
  match xhrs σ !! x with
  | Some r =>
      if xhr_sent r then
        match ev with
        | Loaded status statusText response =>
            match xhr_onload r with
            | Some p => snd (onload x p status statusText response σ)
            | None => σ
            end
        | Errored status statusText =>
            match xhr_onerror r with
            | Some p => snd (onerror p status statusText σ)
            | None => σ
            end
        end
      else σ
  | None => σ
  end.

(** The page after the script and a sequence of events, each of a named
    transport, in the order the browser delivers them. *)
Definition deliver (evs : list (nat * event)) (σ : page) : page :=
  foldl (fun σ '(x, ev) => dispatch x ev σ) σ evs.

(** ** What the script's collaborators observe *)

(** The object a reader of [window.__sentry_preload] holds, if the global was
    set. *)
Definition registry (σ : page) : option (gmap string slot) :=
  r ← sentry_preload σ; objects σ !! r.

(** [window.__sentry_preload[k]], where the global is set and has the key. *)
Definition registry_get (σ : page) (k : string) : option slot :=
  o ← registry σ; o !! k.

Definition logical_keys : list string := ["organization"; "projects"; "teams"].

(** No logical key is present. *)
Definition registry_empty (σ : page) : Prop :=
  Forall (fun k => registry_get σ k = None) logical_keys.

(** Every logical key holds a promise of the page. *)
Definition registry_populated (σ : page) : Prop :=
  Forall (fun k => ∃ p, registry_get σ k = Some (SPromise p) ∧ is_Some (promises σ !! p))
         logical_keys.

Definition is_fulfilled (s : promise) : bool :=
  if s is Fulfilled _ _ _ then true else false.

(** The authenticated-user marker, as line 10 tests it. *)
Definition authenticated (d : val) : bool :=
  match member d ["user"] with
  | Ok user => truthy user
  | Throw _ => false
  end.

(** ** The shape of the page data

    Modelled from the spec: the declaration of the type of
    [window.__initialData] is not among the sources.  Section 3 of the
    specification lists its fields: an optional user marker, an optional
    last-used-tenant slug, an optional customer-domain descriptor with a
    tenant slug, a links object with a default host and an optional region
    host, and a trace pair of two strings.  An optional field may be missing
    or [null]; the script itself allows for a missing links object. *)

Definition is_string (v : val) : bool :=
  if v is VStr _ then true else false.

Definition string_or_absent (v : val) : bool :=
  match v with
  | VStr _ | VUndef | VNull => true
  | _ => false
  end.

Definition field (fs : gmap string val) (k : string) : val := default VUndef (fs !! k).

Definition InitialPageData (d : val) : bool :=
  match d with
  | VObj fs =>
      string_or_absent (field fs "lastOrganization")
      && match field fs "customerDomain" with
         | VUndef | VNull => true
         | VObj cd => string_or_absent (field cd "subdomain")
         | _ => false
         end
      && match field fs "links" with
         | VUndef | VNull => true
         | VObj l => string_or_absent (field l "regionUrl") && string_or_absent (field l "sentryUrl")
         | _ => false
         end
      && match field fs "initialTrace" with
         | VObj t => is_string (field t "sentry_trace") && is_string (field t "baggage")
         | _ => false
         end
  | _ => false
  end.

(** ** Auxiliary definitions for the statements *)

(** The header value stored for field [k] of the trace context: what
    [setRequestHeader] makes of [window.__initialData.initialTrace[k]]. *)
Definition trace_header (d : val) (k : string) : res string :=
  v ← member d ["initialTrace"; k]; header_value_of v.

(** The ways a call of [__preloadData] on a freshly loaded page can end: the
    completion and the page it leaves. *)
Inductive preload_outcome (d : val) : res unit → page → Prop :=
  | unreadable :
      member d ["user"] = Throw TypeError →
      preload_outcome d (Throw TypeError) (page_load d)
  | anonymous user :
      member d ["user"] = Ok user → truthy user = false →
      preload_outcome d (Ok ()) (page_load d)
  | no_tenant slug :
      authenticated d = true → slug_of d = Ok slug → truthy slug = false →
      preload_outcome d (Ok ())
        (Page d (Some 0) [ {[ "orgSlug" := SVal slug ]} ] [] [] [])
  | no_url slug host e :
      authenticated d = true → slug_of d = Ok slug → truthy slug = true →
      host_of d = Ok host → makeUrl host slug "/?detailed=0" = Throw e →
      preload_outcome d (Throw e)
        (Page d (Some 0) [ {[ "orgSlug" := SVal slug ]} ] [] [] [])
  | issued slug xs s0 s1 s2 n :
      authenticated d = true → slug_of d = Ok slug → truthy slug = true →
      is_fulfilled s0 = false → is_fulfilled s1 = false → is_fulfilled s2 = false →
      preload_outcome d (Ok ())
        (Page d (Some 0)
           [ <["teams" := SPromise 2]> (<["projects" := SPromise 1]>
               (<["organization" := SPromise 0]> {[ "orgSlug" := SVal slug ]})) ]
           xs [s0; s1; s2] n).

(** ** Pages used as examples *)

Definition trace_context : val :=
  VObj {[ "sentry_trace" := VStr "771a43a4192642f0b136d5159a501700-b7ad6b7169203331-1";
          "baggage" := VStr "sentry-environment=production,sentry-release=24.2.0" ]}.

(** A signed-in page served from a region, whose last-used tenant and
    customer domain name different tenants. *)
Definition page_region : val :=
  VObj {[ "user" := VObj {[ "id" := VStr "1" ]};
          "lastOrganization" := VStr "acme";
          "customerDomain" := VObj {[ "subdomain" := VStr "globex" ]};
          "links" := VObj {[ "regionUrl" := VStr "https://us.sentry.io";
                             "sentryUrl" := VStr "https://sentry.io" ]};
          "initialTrace" := trace_context ]}.

(** A signed-in page whose region host is the default host. *)
Definition page_same_origin : val :=
  VObj {[ "user" := VObj {[ "id" := VStr "1" ]};
          "lastOrganization" := VStr "acme";
          "links" := VObj {[ "regionUrl" := VStr "https://sentry.io";
                             "sentryUrl" := VStr "https://sentry.io" ]};
          "initialTrace" := trace_context ]}.

(** A signed-in page whose links carry a default host and no region host. *)
Definition page_region_absent : val :=
  VObj {[ "user" := VObj {[ "id" := VStr "1" ]};
          "lastOrganization" := VStr "acme";
          "links" := VObj {[ "sentryUrl" := VStr "https://sentry.io" ]};
          "initialTrace" := trace_context ]}.

(** A page with no signed-in user. *)
Definition page_anonymous : val :=
  VObj {[ "user" := VNull;
          "lastOrganization" := VStr "acme";
          "links" := VObj {[ "sentryUrl" := VStr "https://sentry.io" ]};
          "initialTrace" := trace_context ]}.

(** A signed-in page with no tenant. *)
Definition page_no_tenant : val :=
  VObj {[ "user" := VObj {[ "id" := VStr "1" ]};
          "lastOrganization" := VNull;
          "customerDomain" := VNull;
          "links" := VObj {[ "sentryUrl" := VStr "https://sentry.io" ]};
          "initialTrace" := trace_context ]}.

(** A signed-in page whose only tenant source is the customer domain. *)
Definition page_customer_domain : val :=
  VObj {[ "user" := VObj {[ "id" := VStr "1" ]};
          "lastOrganization" := VNull;
          "customerDomain" := VObj {[ "subdomain" := VStr "globex" ]};
          "initialTrace" := trace_context ]}.


(** A signed-in page whose tenant slug is an object with a field named
    [toString]. *)
Definition page_bad_slug : val :=
  VObj {[ "user" := VObj {[ "id" := VStr "1" ]};
          "lastOrganization" := VObj {[ "toString" := VStr "acme" ]};
          "initialTrace" := trace_context ]}.


(** A signed-in page whose region host is an object with a field named
    [toString]. *)
Definition page_bad_host : val :=
  VObj {[ "user" := VObj {[ "id" := VStr "1" ]};
          "lastOrganization" := VStr "acme";
          "links" := VObj {[ "regionUrl" := VObj {[ "toString" := VNull ]};
                             "sentryUrl" := VStr "https://sentry.io" ]};
          "initialTrace" := trace_context ]}.

(** A signed-in page on a customer domain whose last-used tenant is the
    empty string. *)
Definition page_empty_last : val :=
  VObj {[ "user" := VObj {[ "id" := VStr "1" ]};
          "lastOrganization" := VStr "";
          "customerDomain" := VObj {[ "subdomain" := VStr "globex" ]};
          "initialTrace" := trace_context ]}.


Definition line_feed : ascii := Eval cbv in ascii_of_N 10.

Definition LF : string := String line_feed EmptyString.



(** ** A browser for the examples

    A parser that accepts three shapes of URL, each of which the URL
    standard parses against the address of a page served over http or
    https, and refuses every other string:
    - a slash and then a letter or a digit: a path on the host of the page;
    - letters and digits up to a slash: a path relative to the page;
    - [http://] or [https://], then a host made of labels of letters and
      digits that are separated by dots, the last label starting with a
      letter, then a slash.
    What follows the slash is path, query or fragment, where the standard's
    parser does not fail.  Among the strings it refuses are those with a
    space in the host, which the standard refuses too. *)

Inductive url_state : Type :=
  | UStart | USlash
  | UH | UHt | UHtt | UHttp | UHttps | UWord
  | UColon | UColonSlash
  | ULabel | UAlpha | UDigit
  | UAccept | UReject.

Definition is_digit (c : ascii) : bool := N.leb 48 (byte c) && N.leb (byte c) 57.

Definition is_alpha (c : ascii) : bool :=
  N.leb 65 (byte c) && N.leb (byte c) 90 || N.leb 97 (byte c) && N.leb (byte c) 122.

Definition is_alnum (c : ascii) : bool := is_alpha c || is_digit c.

Definition url_step (st : url_state) (c : ascii) : url_state :=
  let word := if Ascii.eqb c "/" then UAccept else if is_alnum c then UWord else UReject in
  match st with
  | UStart =>
      if Ascii.eqb c "/" then USlash
      else if Ascii.eqb c "h" then UH
      else if is_alnum c then UWord else UReject
  | USlash => if is_alnum c then UAccept else UReject
  | UH => if Ascii.eqb c "t" then UHt else word
  | UHt => if Ascii.eqb c "t" then UHtt else word
  | UHtt => if Ascii.eqb c "p" then UHttp else word
  | UHttp => if Ascii.eqb c ":" then UColon else if Ascii.eqb c "s" then UHttps else word
  | UHttps => if Ascii.eqb c ":" then UColon else word
  | UWord => word
  | UColon => if Ascii.eqb c "/" then UColonSlash else UReject
  | UColonSlash => if Ascii.eqb c "/" then ULabel else UReject
  | ULabel => if is_alpha c then UAlpha else if is_digit c then UDigit else UReject
  | UAlpha =>
      if Ascii.eqb c "/" then UAccept
      else if Ascii.eqb c "." then ULabel
      else if is_alnum c then UAlpha else UReject
  | UDigit =>
      if Ascii.eqb c "." then ULabel
      else if is_alnum c then UDigit else UReject
  | UAccept => UAccept
  | UReject => UReject
  end.

Fixpoint url_run (st : url_state) (u : string) : url_state :=
  match u with
  | EmptyString => st
  | String c u' => url_run (url_step st c) u'
  end.

Definition sample_url_parses (u : string) : bool :=
  match url_run UStart u with
  | UAccept => true
  | _ => false
  end.

Lemma url_run_app st a b : url_run st (a +:+ b) = url_run (url_run st a) b.
Proof. revert st. induction a as [|c a IH]; intros st; [done|]. apply IH. Qed.

Lemma url_run_decided st u :
  st = UAccept ∨ st = UReject → url_run st u = st.
Proof. intros Hst. induction u as [|c u IH]; [done|]. by destruct Hst as [-> | ->]. Qed.

(** Whatever was read before it, the text [/api/0/organizations/] decides
    the verdict. *)
Lemma url_run_organizations st :
  let st' := url_run st "/api/0/organizations/" in st' = UAccept ∨ st' = UReject.
Proof. destruct st; vm_compute; auto. Qed.

Lemma sample_url_parses_suffix host slug suffix suffix' :
  suffix ∈ suffixes → suffix' ∈ suffixes →
  sample_url_parses (((host +:+ "/api/0/organizations/") +:+ slug) +:+ suffix)
  = sample_url_parses (((host +:+ "/api/0/organizations/") +:+ slug) +:+ suffix').
Proof.
  intros _ _. unfold sample_url_parses. rewrite !url_run_app.
  pose proof (url_run_organizations (url_run UStart host)) as Hst. cbv zeta in Hst.
  by rewrite !(url_run_decided _ _ Hst).
Qed.

Definition sample_browser : Browser :=
  {| url_parses := sample_url_parses; url_parses_suffix := sample_url_parses_suffix |}.

#[global] Existing Instance sample_browser.

(** * The priority dropdown: who last edited the priority

    The memoised value of [useLastEditedBy] and the choice
    [PriorityChangeActor] makes from it (src/unnamed/part_001, lines 56-107).
    The hooks are read as functions of what they return: [data] is the
    result of the activities query, absent until it arrives. *)

Module GroupPriority.

(** The declarations of [Activity], [AvatarUser] and [GroupActivityType] are
    not among the sources: an activity is taken with the two fields the code
    reads, a user with its [name], and the activity type with the constant
    [SET_PRIORITY] as parameters. *)
Record AvatarUser : Type := { name : string }.

(** ['system' | AvatarUser]. *)
Inductive editor : Type :=
  | System
  | User (u : AvatarUser).

(** What [PriorityChangeActor] renders. *)
Inductive actor_view : Type :=
  | InlinePlaceholder
  | Sentry
  | UserName (n : string).

Section activities.
Context {activity_type : Type} `{EqDecision activity_type}.
Variable SET_PRIORITY : activity_type.

Record Activity : Type := { type : activity_type; user : option AvatarUser }.

(** The response of the query: [{activity: Activity[]}], the list read with
    [?.]. *)
Record response : Type := { activity : option (list Activity) }.

(** Lines 65-78, the function given to [useMemo]. *)
Definition lastEditedBy (incomingLastEditedBy : option editor) (data : option response)
  : option editor :=
  match incomingLastEditedBy with
  | Some e => Some e
  | None =>
      match data with
      | None => None
      | Some r =>
          Some (match
                  activities ← activity r;
                  a ← List.find (fun a => bool_decide (type a = SET_PRIORITY)) activities;
                  user a
                with
                | Some u => User u
                | None => System
                end)
      end
  end.

(** Lines 92-107. *)
Definition PriorityChangeActor (incomingLastEditedBy : option editor)
    (data : option response) : actor_view :=
  match lastEditedBy incomingLastEditedBy data with
  | None => InlinePlaceholder
  | Some System => Sentry
  | Some (User u) => UserName (name u)
  end.

End activities.
End GroupPriority.

(** A text with quotes in it is built from the quote character. *)
Definition quoted (s : string) : string :=
  String JSON.dquote s +:+ String JSON.dquote EmptyString.

(** * Proofs *)

(** ** [JSON.parse] on examples *)

Example parse_object :
  JSON.parse ("{" +:+ quoted "id" +:+ ": 1, " +:+ quoted "slug" +:+ " : " +:+ quoted "acme"
              +:+ ", " +:+ quoted "tags" +:+ ": [true, null, -0.5e+3]}")
  = Some (JSON.JObject [("id", JSON.JNumber "1"); ("slug", JSON.JString "acme");
       ("tags", JSON.JArray [JSON.JBool true; JSON.JNull; JSON.JNumber "-0.5e+3"])]).
Proof. vm_compute. reflexivity. Qed.

Example parse_empty : JSON.parse "" = None.
Proof. reflexivity. Qed.

Example parse_html : JSON.parse "<html>" = None.
Proof. reflexivity. Qed.

Example parse_trailing :
  JSON.parse "[1,]" = None /\ JSON.parse "{} x" = None /\ JSON.parse "01" = None.
Proof. vm_compute. auto. Qed.

(** ** The URL parser and the header values on examples *)

Example sample_browser_verdicts :
  url_parses "/api/0/organizations/acme/?detailed=0" = true
  ∧ url_parses "https://us.sentry.io/api/0/organizations/acme/teams/" = true
  ∧ url_parses "undefined/api/0/organizations/acme/teams/" = true
  ∧ url_parses "https://us sentry.io/api/0/organizations/acme/teams/" = false.
Proof. repeat split; vm_compute; reflexivity. Qed.

Example header_values :
  header_value_of (VStr " 771a-b7ad-1 ") = Ok "771a-b7ad-1"
  ∧ header_value_of (VStr ("a=1" +:+ LF)) = Ok "a=1"
  ∧ header_value_of (VStr ("a=1," +:+ LF +:+ "b=2")) = Throw SyntaxError
  ∧ header_value_of VUndef = Ok "undefined"
  ∧ header_value_of (VObj {[ "toString" := VNull ]}) = Throw TypeError.
Proof. repeat split; vm_compute; reflexivity. Qed.

(** ** The stores and the monad *)

Section stores.
Context {A : Type}.
Implicit Types (l : list A) (x y : A).

Lemma alter_snoc f l x : alter f (length l) (l ++ [x]) = l ++ [f x].
Proof. by rewrite alter_app_r_alt, Nat.sub_diag. Qed.

Lemma lookup_snoc l x : (l ++ [x]) !! length l = Some x.
Proof. by rewrite list_lookup_middle. Qed.

Lemma insert_snoc l x y : <[length l := y]> (l ++ [x]) = l ++ [y].
Proof. by rewrite insert_app_r_alt, Nat.sub_diag. Qed.
End stores.

Lemma bind_Ok {A B} (m : M A) (f : A → M B) σ a σ' :
  m σ = (Ok a, σ') → (m ≫= f) σ = f a σ'.
Proof. unfold mbind, M_bind. by intros ->. Qed.

Lemma bind_Throw {A B} (m : M A) (f : A → M B) σ e σ' :
  m σ = (Throw e, σ') → (m ≫= f) σ = (Throw e, σ').
Proof. unfold mbind, M_bind. by intros ->. Qed.

Lemma lift_bind_Ok {A B} (r : res A) (f : A → M B) σ a :
  r = Ok a → (lift r ≫= f) σ = f a σ.
Proof. by intros ->. Qed.

Lemma lift_bind_Throw {A B} (r : res A) (f : A → M B) σ e :
  r = Throw e → (lift r ≫= f) σ = (Throw e, σ).
Proof. by intros ->. Qed.

Lemma res_Ok_bind {A B} (a : A) (f : A → res B) : (Ok a ≫= f) = f a.
Proof. done. Qed.

Lemma res_Throw_bind {A B} (e : exn) (f : A → res B) : (Throw e ≫= f) = Throw e.
Proof. done. Qed.

Section transport.
Context `{Browser}.
Variables (d : val) (sp : option nat) (os : list (gmap string slot)).
Variables (xs : list xhr) (ps : list promise) (n : list request).

Lemma xhr_modify_last f r :
  xhr_modify (length xs) f (Page d sp os (xs ++ [r]) ps n)
  = (Ok (), Page d sp os (xs ++ [f r]) ps n).
Proof. unfold xhr_modify, modify, with_xhrs. simpl. by rewrite alter_snoc. Qed.

Lemma xhr_open_last method url r :
  url_parses url = true →
  xhr_open (length xs) method url (Page d sp os (xs ++ [r]) ps n)
  = (Ok (),
     Page d sp os
       (xs ++ [Xhr (Some (method, url)) [] (xhr_withCredentials r)
                   (xhr_onload r) (xhr_onerror r) false]) ps n).
Proof. intros Hurl. unfold xhr_open. rewrite Hurl. apply xhr_modify_last. Qed.

Lemma xhr_open_throws x method url σ :
  url_parses url = false → xhr_open x method url σ = (Throw SyntaxError, σ).
Proof. intros Hurl. unfold xhr_open. by rewrite Hurl. Qed.

Lemma xhr_ready_last r target :
  xhr_opened r = Some target → xhr_sent r = false →
  xhr_ready (length xs) (Page d sp os (xs ++ [r]) ps n)
  = (Ok r, Page d sp os (xs ++ [r]) ps n).
Proof.
  intros Hopened Hsent. unfold xhr_ready. cbn [xhrs].
  rewrite lookup_snoc, Hopened, Hsent.
  by rewrite bool_decide_eq_true_2 by by eexists.
Qed.

Lemma xhr_setRequestHeader_last name v s r target :
  header_value_of v = Ok s → xhr_opened r = Some target → xhr_sent r = false →
  xhr_setRequestHeader (length xs) name v (Page d sp os (xs ++ [r]) ps n)
  = (Ok (),
     Page d sp os
       (xs ++ [Xhr (xhr_opened r) (xhr_headers r ++ [(name, s)]) (xhr_withCredentials r)
                   (xhr_onload r) (xhr_onerror r) (xhr_sent r)]) ps n).
Proof.
  intros Hs Hopened Hsent. unfold xhr_setRequestHeader, header_value_of in *.
  destruct (to_string v) as [s0|e]; [|done]. rewrite res_Ok_bind in Hs.
  erewrite lift_bind_Ok by reflexivity.
  erewrite bind_Ok by (by eapply xhr_ready_last).
  destruct (is_header_value (normalize s0)); [|done].
  injection Hs as <-. apply xhr_modify_last.
Qed.

Lemma xhr_setRequestHeader_throws name v e r target :
  header_value_of v = Throw e → xhr_opened r = Some target → xhr_sent r = false →
  xhr_setRequestHeader (length xs) name v (Page d sp os (xs ++ [r]) ps n)
  = (Throw e, Page d sp os (xs ++ [r]) ps n).
Proof.
  intros Hs Hopened Hsent. unfold xhr_setRequestHeader, header_value_of in *.
  destruct (to_string v) as [s0|e0].
  - rewrite res_Ok_bind in Hs. erewrite lift_bind_Ok by reflexivity.
    erewrite bind_Ok by (by eapply xhr_ready_last).
    destruct (is_header_value (normalize s0)); [done|]. by injection Hs as <-.
  - rewrite res_Throw_bind in Hs. injection Hs as <-.
    by erewrite lift_bind_Throw by reflexivity.
Qed.

Lemma xhr_set_withCredentials_last b r :
  xhr_sent r = false →
  xhr_set_withCredentials (length xs) b (Page d sp os (xs ++ [r]) ps n)
  = (Ok (),
     Page d sp os
       (xs ++ [Xhr (xhr_opened r) (xhr_headers r) b (xhr_onload r) (xhr_onerror r)
                   (xhr_sent r)]) ps n).
Proof.
  intros Hsent. unfold xhr_set_withCredentials. cbn [xhrs].
  rewrite lookup_snoc, Hsent, xhr_modify_last. by rewrite Hsent.
Qed.

Lemma xhr_send_last method url headers credentials onl one :
  xhr_send (length xs)
    (Page d sp os (xs ++ [Xhr (Some (method, url)) headers credentials onl one false]) ps n)
  = (Ok (),
     Page d sp os (xs ++ [Xhr (Some (method, url)) headers credentials onl one true]) ps
       (n ++ [Request method url headers credentials])).
Proof.
  unfold xhr_send. erewrite bind_Ok by (by eapply xhr_ready_last).
  unfold modify, with_xhrs, with_network. simpl.
  by rewrite insert_snoc.
Qed.

Lemma settle_last s :
  settle (length ps) s (Page d sp os xs (ps ++ [Pending]) n)
  = (Ok (), Page d sp os xs (ps ++ [s]) n).
Proof.
  unfold settle, modify, with_promises. simpl. by rewrite lookup_snoc, insert_snoc.
Qed.
End transport.

(** One call of [promiseRequest], whatever the page holds. *)
Lemma promiseRequest_run `{Browser} url d sp os xs ps n :
  let p := length ps in
  promiseRequest url (Page d sp os xs ps n) =
    (Ok p,
     if url_parses url then
       match trace_header d "sentry_trace" with
       | Throw e =>
           Page d sp os (xs ++ [Xhr (Some ("GET", url)) [] false None None false])
             (ps ++ [Rejected (RExn e)]) n
       | Ok st =>
           match trace_header d "baggage" with
           | Throw e =>
               Page d sp os
                 (xs ++ [Xhr (Some ("GET", url)) [("sentry-trace", st)] false None None false])
                 (ps ++ [Rejected (RExn e)]) n
           | Ok bg =>
               let headers := [("sentry-trace", st); ("baggage", bg)] in
               Page d sp os
                 (xs ++ [Xhr (Some ("GET", url)) headers true (Some p) (Some p) true])
                 (ps ++ [Pending])
                 (n ++ [Request "GET" url headers true])
           end
       end
     else
       Page d sp os (xs ++ [Xhr None [] false None None false])
         (ps ++ [Rejected (RExn SyntaxError)]) n).
Proof.
  intros p. subst p. unfold promiseRequest, new_Promise, trace_header.
  cbv zeta. unfold with_promises.
  cbn [promises initialData sentry_preload objects xhrs network].
  erewrite bind_Ok by reflexivity.
  unfold with_xhrs. cbn [xhrs initialData sentry_preload objects promises network].
  destruct (url_parses url) eqn:Hurl.
  2:{ erewrite bind_Throw by (by apply xhr_open_throws).
      cbv beta iota. by rewrite settle_last. }
  erewrite bind_Ok by (by apply xhr_open_last).
  cbn [xhr_withCredentials xhr_onload xhr_onerror].
  erewrite bind_Ok by reflexivity. cbn [initialData].
  destruct (member d ["initialTrace"; "sentry_trace"]) as [st|e].
  2:{ erewrite lift_bind_Throw by reflexivity. rewrite res_Throw_bind.
      cbv beta iota. by rewrite settle_last. }
  erewrite lift_bind_Ok by reflexivity. rewrite res_Ok_bind.
  destruct (header_value_of st) as [st'|e] eqn:Hst'.
  2:{ erewrite bind_Throw by (by eapply xhr_setRequestHeader_throws).
      cbv beta iota. by rewrite settle_last. }
  erewrite bind_Ok by (by eapply xhr_setRequestHeader_last).
  cbn [xhr_opened xhr_headers xhr_withCredentials xhr_onload xhr_onerror xhr_sent app].
  erewrite bind_Ok by reflexivity. cbn [initialData].
  destruct (member d ["initialTrace"; "baggage"]) as [bg|e].
  2:{ erewrite lift_bind_Throw by reflexivity. rewrite res_Throw_bind.
      cbv beta iota. by rewrite settle_last. }
  erewrite lift_bind_Ok by reflexivity. rewrite res_Ok_bind.
  destruct (header_value_of bg) as [bg'|e] eqn:Hbg'.
  2:{ erewrite bind_Throw by (by eapply xhr_setRequestHeader_throws).
      cbv beta iota. by rewrite settle_last. }
  erewrite bind_Ok by (by eapply xhr_setRequestHeader_last).
  cbn [xhr_opened xhr_headers xhr_withCredentials xhr_onload xhr_onerror xhr_sent app].
  erewrite bind_Ok by (by apply xhr_set_withCredentials_last).
  unfold xhr_set_onload, xhr_set_onerror.
  do 2 erewrite bind_Ok by apply xhr_modify_last.
  cbn [xhr_opened xhr_headers xhr_withCredentials xhr_onload xhr_onerror xhr_sent app].
  by rewrite xhr_send_last.
Qed.

Ltac run :=
  unfold mbind, M_bind, window_initialData, lift, modify;
  cbn -[member alter insert lookup to_string truthy promiseRequest].



Lemma promiseRequest_returns `{Browser} url σ :
  ∃ s xs n,
    promiseRequest url σ =
      (Ok (length (promises σ)),
       Page (initialData σ) (sentry_preload σ) (objects σ) xs (promises σ ++ [s]) n)
    ∧ is_fulfilled s = false.
Proof.
  destruct σ as [d sp os xs ps n]. cbn [initialData sentry_preload objects xhrs promises network].
  rewrite promiseRequest_run. destruct (url_parses url); [|by eauto].
  destruct (trace_header d "sentry_trace"); [|by eauto].
  destruct (trace_header d "baggage"); by eauto.
Qed.




Lemma get_defined v k : v ≠ VUndef → v ≠ VNull → ∃ w, get v k = Ok w.
Proof. destruct v; simpl; eauto; congruence. Qed.

Lemma get_Ok_defined v k w : get v k = Ok w → v ≠ VUndef ∧ v ≠ VNull.
Proof. by destruct v. Qed.

Lemma get_throws v k e : get v k = Throw e → e = TypeError.
Proof. destruct v; simpl; congruence. Qed.

Lemma truthy_defined v : truthy v = true → v ≠ VUndef ∧ v ≠ VNull.
Proof. by destruct v. Qed.

Lemma member_1 v k : member v [k] = get v k.
Proof. simpl. by destruct (get v k). Qed.

Lemma member_2 v k1 k2 w :
  get v k1 = Ok w → member v [k1; k2] = get w k2.
Proof. simpl. intros ->. simpl. by destruct (get w k2). Qed.


Lemma slug_of_defined d :
  d ≠ VUndef → d ≠ VNull → ∃ slug, slug_of d = Ok slug.
Proof.
  intros H1 H2. unfold slug_of. rewrite (member_1 d "lastOrganization").
  destruct (get_defined d "lastOrganization") as [last ->]; [done..|]. cbn -[member].
  destruct (truthy last); cbn -[member]; [eauto|].
  rewrite (member_1 d "customerDomain").
  destruct (get_defined d "customerDomain") as [cd Hcd]; [done..|]. rewrite Hcd. cbn -[member].
  destruct (truthy cd) eqn:Ht; [|eauto].
  rewrite (member_2 _ _ _ _ Hcd).
  apply truthy_defined in Ht as [??]. by apply get_defined.
Qed.

Lemma host_of_defined d :
  d ≠ VUndef → d ≠ VNull → ∃ host, host_of d = Ok host.
Proof.
  intros H1 H2. unfold host_of. rewrite (member_1 d "links").
  destruct (get_defined d "links") as [links Hl]; [done..|]. rewrite Hl. cbn -[member].
  destruct (truthy links) eqn:Ht; [|eauto].
  rewrite !(member_2 _ _ _ _ Hl).
  apply truthy_defined in Ht as [??].
  destruct (get_defined links "regionUrl") as [r ->]; [done..|]. cbn -[member].
  destruct (get_defined links "sentryUrl") as [s ->]; [done..|]. cbn -[member].
  destruct (strict_neq r s); eauto.
Qed.

Lemma makeUrl_Ok host slug suffix url :
  makeUrl host slug suffix = Ok url →
  ∃ h s, to_string host = Ok h ∧ to_string slug = Ok s
         ∧ url = ((h +:+ "/api/0/organizations/") +:+ s) +:+ suffix.
Proof.
  unfold makeUrl. destruct (to_string host) as [h|]; [|done]. simpl.
  destruct (to_string slug) as [s|]; [|done]. simpl. intros [= <-]. eauto.
Qed.

Lemma makeUrl_suffix host slug suffix suffix' url :
  makeUrl host slug suffix = Ok url →
  ∃ url', makeUrl host slug suffix' = Ok url'.
Proof.
  intros (h & s & Hh & Hs & _)%makeUrl_Ok. unfold makeUrl. rewrite Hh, Hs. simpl. eauto.
Qed.

Lemma authenticated_user d :
  authenticated d = true → ∃ user, member d ["user"] = Ok user ∧ truthy user = true.
Proof. unfold authenticated. destruct (member d ["user"]); [eauto|done]. Qed.

Lemma preloadData_outcome `{Browser} d :
  preload_outcome d (__preloadData (page_load d)).1 (__preloadData (page_load d)).2.
Proof.
  unfold __preloadData. run.
  destruct (member d ["user"]) as [user|e] eqn:Huser.
  2:{ rewrite member_1 in Huser. apply get_throws in Huser as Heq. subst e.
      constructor. by rewrite member_1. }
  run. destruct (truthy user) eqn:Ht; run; [|by econstructor].
  assert (Hauth : authenticated d = true) by (unfold authenticated; by rewrite Huser).
  rewrite member_1 in Huser. apply get_Ok_defined in Huser as [Hd1 Hd2].
  destruct (slug_of_defined d) as [slug Hslug]; [done..|]. rewrite Hslug. run.
  destruct (host_of_defined d) as [host Hhost]; [done..|]. rewrite Hhost. run.
  unfold new_object, set_sentry_preload, set_property. run.
  destruct (truthy slug) eqn:Hs; run; [|by econstructor].
  destruct (makeUrl host slug "/?detailed=0") as [url0|e] eqn:Hurl; run; [|by econstructor].
  destruct (makeUrl_suffix _ _ _ "/projects/?all_projects=1&collapse=latestDeploys&collapse=unusedFeatures" _ Hurl) as [url1 Hurl1].
  destruct (makeUrl_suffix _ _ _ "/teams/" _ Hurl) as [url2 Hurl2].
  edestruct (promiseRequest_returns url0) as (s0 & xs0 & n0 & -> & Hs0). run.
  rewrite Hurl1. run.
  edestruct (promiseRequest_returns url1) as (s1 & xs1 & n1 & -> & Hs1). run.
  rewrite Hurl2. run.
  edestruct (promiseRequest_returns url2) as (s2 & xs2 & n2 & -> & Hs2). run.
  by econstructor.
Qed.

(** *** Well-formed page data *)

Lemma wf_object d : InitialPageData d = true → ∃ fs, d = VObj fs.
Proof. destruct d; try done. eauto. Qed.

Lemma wf_slug d slug :
  InitialPageData d = true → slug_of d = Ok slug → truthy slug = true →
  ∃ s, slug = VStr s.
Proof.
  intros Hwf. destruct (wf_object d Hwf) as [fs ->]. revert Hwf.
  unfold InitialPageData, slug_of. rewrite !andb_true_iff. intros [[[Hlast Hcd] _] _].
  cbn -[truthy]. fold (field fs "lastOrganization") (field fs "customerDomain").
  destruct (field fs "lastOrganization") as [| | | |s| |]; try done; cbn -[truthy].
  3:{ destruct (truthy (VStr s)) eqn:Hs; cbn -[truthy].
      - intros [= <-]. eauto.
      - destruct (field fs "customerDomain") as [| | | | | |cd]; try done; cbn -[truthy];
          try (intros [= <-]; congruence).
        fold (field cd "subdomain").
        destruct (field cd "subdomain"); try done; intros [= <-]; try done. eauto. }
  all: destruct (field fs "customerDomain") as [| | | | | |cd]; try done; cbn -[truthy];
         try (intros [= <-]; done);
       fold (field cd "subdomain");
       destruct (field cd "subdomain"); try done; intros [= <-]; try done; eauto.
Qed.

Lemma wf_host d host :
  InitialPageData d = true → host_of d = Ok host → string_or_absent host = true.
Proof.
  intros Hwf. destruct (wf_object d Hwf) as [fs ->]. revert Hwf.
  unfold InitialPageData, host_of. rewrite !andb_true_iff. intros [[_ Hlinks] _].
  cbn -[truthy strict_neq]. fold (field fs "links").
  destruct (field fs "links") as [| | | | | |l]; try done; cbn -[strict_neq];
    try (intros [= <-]; done).
  fold (field l "regionUrl") (field l "sentryUrl").
  apply andb_true_iff in Hlinks as [Hr _].
  destruct (strict_neq _ _); intros [= <-]; done.
Qed.

Lemma string_or_absent_to_string v :
  string_or_absent v = true → ∃ s, to_string v = Ok s.
Proof. destruct v; try done; simpl; eauto. Qed.

Lemma wf_trace d :
  InitialPageData d = true →
  ∃ sentry_trace baggage,
    member d ["initialTrace"; "sentry_trace"] = Ok (VStr sentry_trace)
    ∧ member d ["initialTrace"; "baggage"] = Ok (VStr baggage).
Proof.
  intros Hwf. destruct (wf_object d Hwf) as [fs ->]. revert Hwf.
  unfold InitialPageData. rewrite !andb_true_iff. intros [_ Htrace].
  cbn. fold (field fs "initialTrace").
  destruct (field fs "initialTrace") as [| | | | | |t]; try done. cbn.
  fold (field t "sentry_trace") (field t "baggage").
  apply andb_true_iff in Htrace as [Hst Hbg].
  destruct (field t "sentry_trace"); try done. destruct (field t "baggage"); try done.
  eauto.
Qed.

(** On page data of that shape, with a user and a tenant, every conversion
    of the script succeeds: what is left open is whether the URLs parse and
    whether the trace strings are header values. *)
Lemma wf_conversions d slug :
  InitialPageData d = true → authenticated d = true →
  slug_of d = Ok slug → truthy slug = true →
  ∃ host apiHost tenantSlug sentry_trace baggage,
    host_of d = Ok host ∧ to_string host = Ok apiHost ∧ slug = VStr tenantSlug
    ∧ member d ["initialTrace"; "sentry_trace"] = Ok (VStr sentry_trace)
    ∧ member d ["initialTrace"; "baggage"] = Ok (VStr baggage).
Proof.
  intros Hwf Hauth Hslug Ht.
  destruct (wf_slug d slug Hwf Hslug Ht) as [tenantSlug ->].
  destruct (authenticated_user d Hauth) as (user & Huser & Hu).
  pose proof Huser as Hd. rewrite member_1 in Hd. apply get_Ok_defined in Hd as [Hd1 Hd2].
  destruct (host_of_defined d) as [host Hhost]; [done..|].
  destruct (string_or_absent_to_string host (wf_host d host Hwf Hhost)) as [apiHost HapiHost].
  destruct (wf_trace d Hwf) as (sentry_trace & baggage & Hst & Hbg).
  by exists host, apiHost, tenantSlug, sentry_trace, baggage.
Qed.

(** *** Handlers and events *)

Lemma settle_lookup p s σ j :
  promises (settle p s σ).2 !! j =
    if decide (j = p) then
      match promises σ !! p with
      | Some Pending => Some s
      | o => o
      end
    else promises σ !! j.
Proof.
  unfold settle, modify. cbn -[lookup insert].
  destruct (promises σ !! p) as [[| |]|] eqn:Hp; cbn -[lookup insert];
    case_decide; subst; try done.
  - apply list_lookup_insert_eq. by eapply lookup_lt_Some.
  - by apply list_lookup_insert_ne.
Qed.

Lemma settle_frame p s σ :
  let σ' := (settle p s σ).2 in
  initialData σ' = initialData σ ∧ sentry_preload σ' = sentry_preload σ
  ∧ objects σ' = objects σ ∧ xhrs σ' = xhrs σ ∧ network σ' = network σ
  ∧ length (promises σ') = length (promises σ).
Proof.
  unfold settle, modify. cbn -[lookup insert].
  destruct (promises σ !! p) as [[| |]|]; cbn -[lookup insert]; rewrite ?length_insert; done.
Qed.

Lemma onload_settles x p status text response σ :
  onload x p status text response σ =
    settle p
      (if bool_decide (200 ≤ status)%Z && bool_decide (status < 300)%Z then
         match JSON.parse response with
         | Some body => Fulfilled body text x
         | None => Rejected RNone
         end
       else Rejected (RStatus status text)) σ.
Proof.
  unfold onload, try_catch, JSON_parse.
  destruct (_ && _); [|done].
  unfold mbind, M_bind, lift. by destruct (JSON.parse response).
Qed.

(** What an event of transport [x] does: nothing, or it settles the promise
    its handler closes over. *)
Lemma dispatch_cases x ev σ :
  dispatch x ev σ = σ
  ∨ ∃ r p s,
      xhrs σ !! x = Some r ∧ xhr_sent r = true
      ∧ (xhr_onload r = Some p ∨ xhr_onerror r = Some p)
      ∧ dispatch x ev σ = (settle p s σ).2.
Proof.
  unfold dispatch. destruct (xhrs σ !! x) as [r|] eqn:Hx; [|by left].
  destruct (xhr_sent r) eqn:Hsent; [|by left].
  destruct ev as [status text response|status text].
  - destruct (xhr_onload r) as [p|] eqn:Hp; [|by left].
    right. rewrite onload_settles. eauto 10.
  - destruct (xhr_onerror r) as [p|] eqn:Hp; [|by left].
    right. unfold onerror. eauto 10.
Qed.

Lemma dispatch_frame x ev σ :
  let σ' := dispatch x ev σ in
  initialData σ' = initialData σ ∧ sentry_preload σ' = sentry_preload σ
  ∧ objects σ' = objects σ ∧ xhrs σ' = xhrs σ ∧ network σ' = network σ
  ∧ length (promises σ') = length (promises σ).
Proof.
  destruct (dispatch_cases x ev σ) as [->|(r & p & s & _ & _ & _ & ->)]; [done|].
  apply settle_frame.
Qed.

Lemma deliver_cons x ev evs σ :
  deliver ((x, ev) :: evs) σ = deliver evs (dispatch x ev σ).
Proof. done. Qed.

Lemma deliver_frame evs σ :
  let σ' := deliver evs σ in
  initialData σ' = initialData σ ∧ sentry_preload σ' = sentry_preload σ
  ∧ objects σ' = objects σ ∧ xhrs σ' = xhrs σ ∧ network σ' = network σ
  ∧ length (promises σ') = length (promises σ).
Proof.
  revert σ. induction evs as [|[x ev] evs IH]; intros σ; [done|].
  rewrite deliver_cons. cbv zeta.
  destruct (IH (dispatch x ev σ)) as (-> & -> & -> & -> & -> & ->).
  apply dispatch_frame.
Qed.

(** A promise that no handler of transport [x] closes over is not touched by
    an event of [x]. *)
Lemma dispatch_other x ev σ j :
  (∀ r, xhrs σ !! x = Some r → xhr_onload r ≠ Some j ∧ xhr_onerror r ≠ Some j) →
  promises (dispatch x ev σ) !! j = promises σ !! j.
Proof.
  intros Hj. destruct (dispatch_cases x ev σ) as [->|(r & p & s & Hx & _ & Hp & ->)]; [done|].
  rewrite settle_lookup. case_decide; [|done]. subst.
  destruct (Hj r Hx) as [??]. by destruct Hp.
Qed.

(** A settled promise stays as it is. *)
Lemma dispatch_settled x ev σ j s :
  promises σ !! j = Some s → s ≠ Pending →
  promises (dispatch x ev σ) !! j = Some s.
Proof.
  intros Hj Hs. destruct (dispatch_cases x ev σ) as [->|(r & p & s' & _ & _ & _ & ->)]; [done|].
  rewrite settle_lookup. case_decide; [|done]. subst. rewrite Hj. by destruct s.
Qed.

(** The first event of a sent transport settles its pending promise. *)
Lemma dispatch_pending x ev σ r p :
  xhrs σ !! x = Some r → xhr_sent r = true →
  xhr_onload r = Some p → xhr_onerror r = Some p →
  promises σ !! p = Some Pending →
  promises (dispatch x ev σ) !! p =
    Some match ev with
         | Loaded status text response =>
             if bool_decide (200 ≤ status)%Z && bool_decide (status < 300)%Z then
               match JSON.parse response with
               | Some body => Fulfilled body text x
               | None => Rejected RNone
               end
             else Rejected (RStatus status text)
         | Errored status text => Rejected (RStatus status text)
         end.
Proof.
  intros Hx Hsent Hload Herror Hp. unfold dispatch. rewrite Hx, Hsent.
  destruct ev as [status text response|status text].
  - rewrite Hload, onload_settles, settle_lookup, decide_True, Hp; done.
  - rewrite Herror. unfold onerror. rewrite settle_lookup, decide_True, Hp; done.
Qed.

Lemma script_run `{Browser} σ : script σ = (Ok (), (__preloadData σ).2).
Proof. unfold script, try_catch. by destruct (__preloadData σ) as [[[]|e] σ']. Qed.

(** Where every handler closes over the promise of its own transport,
    events of other transports leave promise [i] as it is. *)
Lemma deliver_others evs σ i :
  Forall (fun e => e.1 ≠ i) evs →
  (∀ x r p, xhrs σ !! x = Some r →
     (xhr_onload r = Some p → p = x) ∧ (xhr_onerror r = Some p → p = x)) →
  promises (deliver evs σ) !! i = promises σ !! i.
Proof.
  intros Hevs. revert σ. induction Hevs as [|[x ev] evs Hx _ IH]; intros σ Hwired; [done|].
  rewrite deliver_cons, IH.
  - apply dispatch_other. intros r Hr. simpl in Hx.
    destruct (Hwired x r i Hr) as [Hl He].
    split; intros Hp; apply Hx; symmetry; auto.
  - intros x' r p. destruct (dispatch_frame x ev σ) as (_ & _ & _ & -> & _). apply Hwired.
Qed.

Lemma registry_get_deliver evs σ k :
  registry_get (deliver evs σ) k = registry_get σ k.
Proof.
  unfold registry_get, registry.
  by destruct (deliver_frame evs σ) as (_ & -> & -> & _).
Qed.

Lemma registry_empty_deliver evs σ :
  registry_empty σ → registry_empty (deliver evs σ).
Proof.
  unfold registry_empty. intros H. eapply Forall_impl; [exact H|].
  intros k. by rewrite registry_get_deliver.
Qed.

Lemma registry_populated_deliver evs σ :
  registry_populated σ → registry_populated (deliver evs σ).
Proof.
  unfold registry_populated. intros H. eapply Forall_impl; [exact H|].
  intros k (p & Hk & Hp).
  exists p. rewrite registry_get_deliver. split; [done|].
  apply lookup_lt_is_Some. apply lookup_lt_is_Some in Hp.
  by destruct (deliver_frame evs σ) as (_ & _ & _ & _ & _ & ->).
Qed.


Lemma registry_get_published d o xs ps n k :
  registry_get (Page d (Some 0) [o] xs ps n) k = o !! k.
Proof. done. Qed.

Lemma registry_get_unpublished d os xs ps n k :
  registry_get (Page d None os xs ps n) k = None.
Proof. done. Qed.

Lemma orgSlug_only_empty d slug xs ps n :
  registry_empty (Page d (Some 0) [ {[ "orgSlug" := SVal slug ]} ] xs ps n).
Proof.
  unfold registry_empty, logical_keys.
  repeat apply Forall_cons_2; try apply Forall_nil_2;
    rewrite registry_get_published; by apply lookup_singleton_ne.
Qed.

Lemma outcome_registry d r σ :
  preload_outcome d r σ →
  (registry_empty σ
   ∧ (r = Ok () → authenticated d = false ∨ ∃ slug, slug_of d = Ok slug ∧ truthy slug = false))
  ∨ (registry_populated σ ∧ r = Ok () ∧ authenticated d = true
     ∧ (∃ slug, slug_of d = Ok slug ∧ truthy slug = true)
     ∧ Forall (fun s => is_fulfilled s = false) (promises σ)).
Proof.
  destruct 1 as [Hd|user Huser Hu|slug Hauth Hslug Ht|slug host e Hauth Hslug Ht Hhost Hurl
                |slug xs s0 s1 s2 n Hauth Hslug Ht Hs0 Hs1 Hs2].
  - left. split; [|done].
    unfold registry_empty, page_load. apply Forall_forall. intros k _.
    apply registry_get_unpublished.
  - left. split.
    + unfold registry_empty, page_load. apply Forall_forall. intros k _.
      apply registry_get_unpublished.
    + intros _. left. unfold authenticated. by rewrite Huser.
  - left. split; [apply orgSlug_only_empty|]. eauto.
  - left. split; [apply orgSlug_only_empty|]. intros [=].
  - right. split.
    2:{ split; [reflexivity|]. split; [exact Hauth|]. split; [by exists slug|].
        cbn [promises]. by repeat apply Forall_cons_2. }
    unfold registry_populated, logical_keys.
    repeat apply Forall_cons_2; try apply Forall_nil_2; rewrite registry_get_published.
    + exists 0. split; [|by eexists].
      rewrite lookup_insert_ne by done. rewrite lookup_insert_ne by done.
      by rewrite lookup_insert_eq.
    + exists 1. split; [|by eexists].
      rewrite lookup_insert_ne by done. by rewrite lookup_insert_eq.
    + exists 2. split; [|by eexists]. by rewrite lookup_insert_eq.
Qed.


(** *** The three requests *)

Lemma suffixes_organization : "/?detailed=0" ∈ suffixes.
Proof. apply list_elem_of_here. Qed.

Lemma suffixes_projects :
  "/projects/?all_projects=1&collapse=latestDeploys&collapse=unusedFeatures" ∈ suffixes.
Proof. apply list_elem_of_further, list_elem_of_here. Qed.

Lemma suffixes_teams : "/teams/" ∈ suffixes.
Proof. do 2 apply list_elem_of_further. apply list_elem_of_here. Qed.

(** The call up to the first [promiseRequest]: the registry is published
    with the slug, and the three URLs are built from one host and one
    slug. *)
Lemma preloadData_requests `{Browser} d slug host apiHost tenantSlug :
  authenticated d = true → slug_of d = Ok slug → truthy slug = true →
  host_of d = Ok host → to_string host = Ok apiHost → to_string slug = Ok tenantSlug →
  let url suffix := ((apiHost +:+ "/api/0/organizations/") +:+ tenantSlug) +:+ suffix in
  let σ0 := Page d (Some 0) [ {[ "orgSlug" := SVal slug ]} ] [] [] [] in
  __preloadData (page_load d) =
    (p0 ← promiseRequest (url "/?detailed=0");
     set_property 0 "organization" (SPromise p0);;
     p1 ← promiseRequest
            (url "/projects/?all_projects=1&collapse=latestDeploys&collapse=unusedFeatures");
     set_property 0 "projects" (SPromise p1);;
     p2 ← promiseRequest (url "/teams/");
     set_property 0 "teams" (SPromise p2)) σ0.
Proof.
  intros Hauth Hslug Ht Hhost HapiHost HtenantSlug url σ0.
  destruct (authenticated_user d Hauth) as (user & Huser & Hu).
  unfold __preloadData.
  erewrite bind_Ok by reflexivity.
  erewrite lift_bind_Ok by exact Huser. rewrite Hu. cbn [negb].
  erewrite lift_bind_Ok by exact Hslug.
  erewrite lift_bind_Ok by exact Hhost.
  erewrite bind_Ok by reflexivity.
  erewrite bind_Ok by reflexivity.
  rewrite Ht. cbn [negb].
  unfold makeUrl. rewrite HapiHost, HtenantSlug, !res_Ok_bind.
  reflexivity.
Qed.

Lemma set_property_published d o k v xs ps n :
  set_property 0 k v (Page d (Some 0) [o] xs ps n)
  = (Ok (), Page d (Some 0) [<[k := v]> o] xs ps n).
Proof. done. Qed.

(** The three calls of [promiseRequest], given what one call does to a page
    with the URL of each suffix. *)
Lemma preloadData_three `{Browser} d slug host apiHost tenantSlug
    (transport : nat → string → xhr) (s : promise) (sent : string → list request) :
  authenticated d = true → slug_of d = Ok slug → truthy slug = true →
  host_of d = Ok host → to_string host = Ok apiHost → to_string slug = Ok tenantSlug →
  let url suffix := ((apiHost +:+ "/api/0/organizations/") +:+ tenantSlug) +:+ suffix in
  (∀ suffix sp os xs ps n, suffix ∈ suffixes →
     promiseRequest (url suffix) (Page d sp os xs ps n) =
       (Ok (length ps),
        Page d sp os (xs ++ [transport (length ps) (url suffix)]) (ps ++ [s])
          (n ++ sent (url suffix)))) →
  __preloadData (page_load d) =
    (Ok (),
     Page d (Some 0)
       [ <["teams" := SPromise 2]> (<["projects" := SPromise 1]>
           (<["organization" := SPromise 0]> {[ "orgSlug" := SVal slug ]})) ]
       (zip_with (fun p suffix => transport p (url suffix)) [0; 1; 2] suffixes)
       [s; s; s]
       (suffixes ≫= fun suffix => sent (url suffix))).
Proof.
  intros Hauth Hslug Ht Hhost HapiHost HtenantSlug url Hrun.
  rewrite (preloadData_requests d slug host apiHost tenantSlug) by done.
  erewrite bind_Ok by apply (Hrun _ _ _ _ _ _ suffixes_organization).
  erewrite bind_Ok by apply set_property_published.
  erewrite bind_Ok by apply (Hrun _ _ _ _ _ _ suffixes_projects).
  erewrite bind_Ok by apply set_property_published.
  erewrite bind_Ok by apply (Hrun _ _ _ _ _ _ suffixes_teams).
  rewrite set_property_published.
  cbn [app length zip_with suffixes mbind list_bind]. by rewrite app_nil_r, <-!app_assoc.
Qed.

(** The verdict of the URL parser on the URL of one suffix is its verdict on
    the first URL. *)
Lemma url_parses_first `{Browser} apiHost tenantSlug suffix :
  suffix ∈ suffixes →
  url_parses (((apiHost +:+ "/api/0/organizations/") +:+ tenantSlug) +:+ suffix)
  = url_parses (((apiHost +:+ "/api/0/organizations/") +:+ tenantSlug) +:+ "/?detailed=0").
Proof. intros Hs. apply url_parses_suffix; [done|apply suffixes_organization]. Qed.

(** The page after three requests were sent. *)
Lemma preloadData_sent `{Browser} d slug host apiHost tenantSlug sentry_trace baggage :
  authenticated d = true → slug_of d = Ok slug → truthy slug = true →
  host_of d = Ok host → to_string host = Ok apiHost → to_string slug = Ok tenantSlug →
  let url suffix := ((apiHost +:+ "/api/0/organizations/") +:+ tenantSlug) +:+ suffix in
  url_parses (url "/?detailed=0") = true →
  trace_header d "sentry_trace" = Ok sentry_trace →
  trace_header d "baggage" = Ok baggage →
  let headers := [("sentry-trace", sentry_trace); ("baggage", baggage)] in
  let sent p suffix := Xhr (Some ("GET", url suffix)) headers true (Some p) (Some p) true in
  __preloadData (page_load d) =
    (Ok (),
     Page d (Some 0)
       [ <["teams" := SPromise 2]> (<["projects" := SPromise 1]>
           (<["organization" := SPromise 0]> {[ "orgSlug" := SVal slug ]})) ]
       (zip_with sent [0; 1; 2] suffixes)
       [Pending; Pending; Pending]
       ((fun suffix => Request "GET" (url suffix) headers true) <$> suffixes)).
Proof.
  intros Hauth Hslug Ht Hhost HapiHost HtenantSlug url Hurl Hst Hbg headers sent.
  unfold url in Hurl.
  rewrite (preloadData_three d slug host apiHost tenantSlug
             (fun p u => Xhr (Some ("GET", u)) headers true (Some p) (Some p) true)
             Pending (fun u => [Request "GET" u headers true])); try done.
  intros suffix sp os xs ps n Hsuffix.
  rewrite promiseRequest_run, Hst, Hbg.
  by rewrite (url_parses_first apiHost tenantSlug suffix Hsuffix), Hurl.
Qed.



(** A slug or a host that cannot be converted to a string: the call throws
    while it builds the first URL. *)
Lemma unconvertible_url_throws_early_run `{Browser} d slug host e :
  authenticated d = true → slug_of d = Ok slug → truthy slug = true →
  host_of d = Ok host → makeUrl host slug "/?detailed=0" = Throw e →
  __preloadData (page_load d)
  = (Throw e, Page d (Some 0) [ {[ "orgSlug" := SVal slug ]} ] [] [] [])
  ∧ script (page_load d)
    = (Ok (), Page d (Some 0) [ {[ "orgSlug" := SVal slug ]} ] [] [] []).
Proof.
  intros Hauth Hslug Ht Hhost Hurl.
  assert (Hrun : __preloadData (page_load d)
                 = (Throw e, Page d (Some 0) [ {[ "orgSlug" := SVal slug ]} ] [] [] [])).
  { destruct (authenticated_user d Hauth) as (user & Huser & Hu).
    unfold __preloadData.
    erewrite bind_Ok by reflexivity.
    erewrite lift_bind_Ok by exact Huser. rewrite Hu. cbn [negb].
    erewrite lift_bind_Ok by exact Hslug.
    erewrite lift_bind_Ok by exact Hhost.
    erewrite bind_Ok by reflexivity.
    erewrite bind_Ok by reflexivity.
    rewrite Ht. cbn [negb].
    by erewrite lift_bind_Throw by exact Hurl. }
  split; [exact Hrun|]. by rewrite script_run, Hrun.
Qed.

(** What one call of [promiseRequest] adds to a page depends on the page
    data and on the verdict of the URL parser alone: one transport, whose
    handlers, if installed, close over the promise created with it; one
    promise, pending if the transport was sent; and either one request
    whatever the URL, or none whatever the URL. *)
Lemma promiseRequest_uniform `{Browser} d (parses : bool) :
  ∃ (transport : nat → string → xhr) (s : promise) (sent : string → list request),
    (∀ url sp os xs ps n,
       url_parses url = parses →
       promiseRequest url (Page d sp os xs ps n) =
         (Ok (length ps),
          Page d sp os (xs ++ [transport (length ps) url]) (ps ++ [s]) (n ++ sent url)))
    ∧ ((∀ url, sent url = []) ∨ (∀ url, length (sent url) = 1))
    ∧ (∀ p url q,
         (xhr_onload (transport p url) = Some q → q = p)
         ∧ (xhr_onerror (transport p url) = Some q → q = p))
    ∧ (∀ p url, xhr_sent (transport p url) = true →
         s = Pending ∧ xhr_onload (transport p url) = Some p
         ∧ xhr_onerror (transport p url) = Some p).
Proof.
  destruct parses.
  2:{ exists (fun p url => Xhr None [] false None None false),
             (Rejected (RExn SyntaxError)), (fun _ => []).
      split; [|split; [by left|done]]. intros url sp os xs ps n Hurl.
      rewrite promiseRequest_run, Hurl. by rewrite app_nil_r. }
  destruct (trace_header d "sentry_trace") as [st|e1] eqn:Hst.
  - destruct (trace_header d "baggage") as [bg|e2] eqn:Hbg.
    + exists (fun p url => Xhr (Some ("GET", url)) [("sentry-trace", st); ("baggage", bg)]
                             true (Some p) (Some p) true),
             Pending,
             (fun url => [Request "GET" url [("sentry-trace", st); ("baggage", bg)] true]).
      split; [|split; [by right|split]].
      * intros url sp os xs ps n Hurl. by rewrite promiseRequest_run, Hurl, Hst, Hbg.
      * intros p url q. cbn. split; congruence.
      * done.
    + exists (fun p url => Xhr (Some ("GET", url)) [("sentry-trace", st)]
                             false None None false),
             (Rejected (RExn e2)), (fun _ => []).
      split; [|split; [by left|done]]. intros url sp os xs ps n Hurl.
      rewrite promiseRequest_run, Hurl, Hst, Hbg. by rewrite app_nil_r.
  - exists (fun p url => Xhr (Some ("GET", url)) [] false None None false),
           (Rejected (RExn e1)), (fun _ => []).
    split; [|split; [by left|done]]. intros url sp os xs ps n Hurl.
    rewrite promiseRequest_run, Hurl, Hst. by rewrite app_nil_r.
Qed.

(** The shape of the page the script leaves, for every page data. *)
Lemma script_shape `{Browser} d :
  let σ := (script (page_load d)).2 in
  initialData σ = d
  ∧ ((xhrs σ = [] ∧ promises σ = [] ∧ network σ = [])
     ∨ (length (xhrs σ) = 3 ∧ length (promises σ) = 3
        ∧ (network σ = [] ∨ length (network σ) = 3)))
  ∧ (∀ x r p, xhrs σ !! x = Some r →
       (xhr_onload r = Some p → p = x) ∧ (xhr_onerror r = Some p → p = x))
  ∧ (∀ x r, xhrs σ !! x = Some r → xhr_sent r = true →
       xhr_onload r = Some x ∧ xhr_onerror r = Some x
       ∧ promises σ !! x = Some Pending).
Proof.
  intros σ. subst σ. rewrite script_run.
  destruct (authenticated d) eqn:Hauth.
  2:{ pose proof (preloadData_outcome d) as Hout.
      destruct (__preloadData (page_load d)) as [r σ]. cbn [fst snd] in *.
      inversion Hout; subst; try congruence;
        (split; [done|split; [by left|split; done]]). }
  destruct (authenticated_user d Hauth) as (user & Huser & Hu).
  pose proof Huser as Hd. rewrite member_1 in Hd. apply get_Ok_defined in Hd as [Hd1 Hd2].
  destruct (slug_of_defined d Hd1 Hd2) as [slug Hslug].
  destruct (host_of_defined d Hd1 Hd2) as [host Hhost].
  destruct (truthy slug) eqn:Ht.
  2:{ pose proof (preloadData_outcome d) as Hout.
      destruct (__preloadData (page_load d)) as [r σ]. cbn [fst snd] in *.
      inversion Hout; subst; try congruence;
        (split; [done|split; [by left|split; done]]). }
  destruct (makeUrl host slug "/?detailed=0") as [url|e] eqn:Hurl.
  2:{ destruct (unconvertible_url_throws_early_run d slug host e) as [-> _]; try done.
      split; [done|split; [by left|split; done]]. }
  destruct (makeUrl_Ok _ _ _ _ Hurl) as (apiHost & tenantSlug & HapiHost & HtenantSlug & _).
  destruct (promiseRequest_uniform d
              (url_parses (((apiHost +:+ "/api/0/organizations/") +:+ tenantSlug)
                           +:+ "/?detailed=0")))
    as (transport & s & sent & Hrun & Hsent & Hwired & Hpending).
  rewrite (preloadData_three d slug host apiHost tenantSlug transport s sent); try done.
  2:{ intros suffix sp os xs ps n Hsuffix. apply Hrun. by apply url_parses_first. }
  cbn [snd initialData xhrs promises network app length zip_with suffixes mbind list_bind].
  split; [done|]. split; [|split].
  - right. split; [done|]. split; [done|].
    destruct Hsent as [Hnone|Hone].
    + left. by rewrite !Hnone.
    + right. rewrite !length_app, !Hone. done.
  - intros [|[|[|x]]] r p; cbn; intros [= <-]; apply Hwired.
  - intros [|[|[|x]]] r; cbn; intros [= <-] Hr; try done;
      destruct (Hpending _ _ Hr) as (-> & ? & ?); done.
Qed.

(** ** The claims *)




(** The example of the claim: for the slug [acme] on a page served from the
    default host, the three URLs are the three paths. *)
Example acme_paths :
  req_url <$> network (script (page_load page_same_origin)).2 =
    [ "/api/0/organizations/acme/?detailed=0";
      "/api/0/organizations/acme/projects/?all_projects=1&collapse=latestDeploys&collapse=unusedFeatures";
      "/api/0/organizations/acme/teams/" ].
Proof. vm_compute. reflexivity. Qed.

(** C2: where the last-used tenant is present, it is the resolved slug,
    whether or not the customer domain names a tenant too; the resolved slug
    differs from the last-used value only if that value is absent, and it is
    then the subdomain of a present customer domain. *)
Theorem C2_last_used_tenant_wins d last :
  member d ["lastOrganization"] = Ok last →
  ∃ slug, slug_of d = Ok slug
    ∧ (truthy last = true → slug = last)
    ∧ (slug ≠ last →
       truthy last = false
       ∧ ∃ cd, member d ["customerDomain"] = Ok cd ∧ truthy cd = true
               ∧ member d ["customerDomain"; "subdomain"] = Ok slug).
Proof.
  intros Hlast. unfold slug_of. rewrite Hlast, res_Ok_bind.
  destruct (truthy last) eqn:Ht; cbn [negb].
  { exists last. by repeat split. }
  rewrite member_1 in Hlast. apply get_Ok_defined in Hlast as [Hd1 Hd2].
  destruct (get_defined d "customerDomain" Hd1 Hd2) as [cd Hcd].
  rewrite (member_1 d "customerDomain"), Hcd, res_Ok_bind.
  destruct (truthy cd) eqn:Hc.
  - destruct (truthy_defined cd Hc) as [Hc1 Hc2].
    destruct (get_defined cd "subdomain" Hc1 Hc2) as [sub Hsub].
    rewrite (member_2 _ _ _ _ Hcd), Hsub.
    exists sub. split; [done|]. split; [done|]. intros _. split; [done|].
    exists cd. by repeat split.
  - exists last. by repeat split.
Qed.

Lemma C2_last_used_tenant_wins_witness :
  member page_region ["lastOrganization"] = Ok (VStr "acme")
  ∧ member page_region ["customerDomain"; "subdomain"] = Ok (VStr "globex")
  ∧ ∃ slug, slug_of page_region = Ok slug
      ∧ (truthy (VStr "acme") = true → slug = VStr "acme")
      ∧ (slug ≠ VStr "acme" →
         truthy (VStr "acme") = false
         ∧ ∃ cd, member page_region ["customerDomain"] = Ok cd ∧ truthy cd = true
                 ∧ member page_region ["customerDomain"; "subdomain"] = Ok slug).
Proof.
  split; [vm_compute; reflexivity|]. split; [vm_compute; reflexivity|].
  apply (C2_last_used_tenant_wins page_region (VStr "acme")). vm_compute; reflexivity.
Defined.

(** *** The host prefix, lines 18-21 *)

Lemma host_of_links d links region default :
  member d ["links"] = Ok links → truthy links = true →
  get links "regionUrl" = Ok region → get links "sentryUrl" = Ok default →
  host_of d = Ok (if strict_neq region default then region else VStr "").
Proof.
  intros Hlinks Ht Hr Hs. unfold host_of. rewrite Hlinks, res_Ok_bind, Ht.
  rewrite member_1 in Hlinks.
  rewrite !(member_2 _ _ _ _ Hlinks), Hr, Hs, !res_Ok_bind.
  by destruct (strict_neq region default).
Qed.

Lemma host_of_no_links d links :
  member d ["links"] = Ok links → truthy links = false → host_of d = Ok (VStr "").
Proof. intros Hlinks Ht. unfold host_of. by rewrite Hlinks, res_Ok_bind, Ht. Qed.

(** C3, at the input where the code departs from the claim: the links carry
    a default host and no region host.  The comparison on line 19 finds
    [undefined] different from the default host, so the host prefix is
    [undefined] and the three URLs start with the text "undefined", not with
    the empty string. *)
Theorem C3_region_absent_prefix :
  InitialPageData page_region_absent = true
  ∧ member page_region_absent ["links"; "regionUrl"] = Ok VUndef
  ∧ member page_region_absent ["links"; "sentryUrl"] = Ok (VStr "https://sentry.io")
  ∧ host_of page_region_absent = Ok VUndef
  ∧ req_url <$> network (script (page_load page_region_absent)).2 =
      [ "undefined/api/0/organizations/acme/?detailed=0";
        "undefined/api/0/organizations/acme/projects/?all_projects=1&collapse=latestDeploys&collapse=unusedFeatures";
        "undefined/api/0/organizations/acme/teams/" ].
Proof. repeat split; vm_compute; reflexivity. Qed.

(** C4: with no user marker, or with no resolvable tenant slug, the call
    returns normally, creates no transport and no promise, hands nothing to
    the network and leaves no logical key in the registry; the top-level
    script ends in the same page. *)
Theorem C4_nothing_issued `{Browser} d user :
  member d ["user"] = Ok user →
  truthy user = false ∨ (∃ slug, slug_of d = Ok slug ∧ truthy slug = false) →
  ∃ σ, __preloadData (page_load d) = (Ok (), σ)
    ∧ script (page_load d) = (Ok (), σ)
    ∧ xhrs σ = [] ∧ promises σ = [] ∧ network σ = []
    ∧ registry_empty σ.
Proof.
  intros Huser Hcase.
  pose proof (preloadData_outcome d) as Hout. rewrite script_run.
  destruct (__preloadData (page_load d)) as [r σ]. cbn [fst snd] in *.
  exists σ.
  assert (Hnone : ∀ os, registry_empty (Page d None os [] [] [])).
  { intros os. apply Forall_forall. intros k _. apply registry_get_unpublished. }
  inversion Hout as [Hd|user' Huser' Hu|slug Hauth Hslug Ht|slug host e Hauth Hslug Ht Hhost Hurl
                    |slug xs s0 s1 s2 n Hauth Hslug Ht Hs0 Hs1 Hs2]; subst.
  - congruence.
  - repeat split; try reflexivity. apply Hnone.
  - repeat split; try reflexivity. apply orgSlug_only_empty.
  - exfalso. destruct Hcase as [Hu|(slug' & Hslug' & Ht')].
    + unfold authenticated in Hauth. rewrite Huser in Hauth. congruence.
    + congruence.
  - exfalso. destruct Hcase as [Hu|(slug' & Hslug' & Ht')].
    + unfold authenticated in Hauth. rewrite Huser in Hauth. congruence.
    + congruence.
Qed.

Lemma C4_nothing_issued_witness :
  member page_no_tenant ["user"] = Ok (VObj {[ "id" := VStr "1" ]})
  ∧ (∃ slug, slug_of page_no_tenant = Ok slug ∧ truthy slug = false)
  ∧ ∃ σ, __preloadData (page_load page_no_tenant) = (Ok (), σ)
      ∧ script (page_load page_no_tenant) = (Ok (), σ)
      ∧ xhrs σ = [] ∧ promises σ = [] ∧ network σ = []
      ∧ registry_empty σ.
Proof.
  split; [vm_compute; reflexivity|].
  split; [exists VNull; split; vm_compute; reflexivity|].
  apply (C4_nothing_issued page_no_tenant (VObj {[ "id" := VStr "1" ]}));
    [vm_compute; reflexivity|].
  right. exists VNull. split; vm_compute; reflexivity.
Defined.




(** On strings with no whitespace at their ends, as those of a trace context
    are, the values are the strings themselves. *)
Example trace_context_verbatim :
  normalize "771a43a4192642f0b136d5159a501700-b7ad6b7169203331-1"
  = "771a43a4192642f0b136d5159a501700-b7ad6b7169203331-1"
  ∧ normalize "sentry-environment=production,sentry-release=24.2.0"
    = "sentry-environment=production,sentry-release=24.2.0".
Proof. split; vm_compute; reflexivity. Qed.

(** *** Settlement *)

(** A transport that the script sent: its two handlers close over the
    promise of its own index, and events of the other transports leave that
    promise pending. *)
Lemma sent_keeps_pending `{Browser} d evs i r :
  xhrs (script (page_load d)).2 !! i = Some r → xhr_sent r = true →
  Forall (fun e => e.1 ≠ i) evs →
  promises (deliver evs (script (page_load d)).2) !! i = Some Pending
  ∧ xhrs (deliver evs (script (page_load d)).2) !! i = Some r
  ∧ xhr_onload r = Some i ∧ xhr_onerror r = Some i.
Proof.
  intros Hr Hsent Hevs.
  destruct (script_shape d) as (_ & _ & Hwired & Hpending). cbv zeta in *.
  destruct (Hpending i r Hr Hsent) as (Hload & Herror & Hp).
  split; [|split; [|done]].
  - by rewrite deliver_others.
  - by destruct (deliver_frame evs (script (page_load d)).2) as (_ & _ & _ & -> & _).
Qed.

Lemma in_range_dec (status : Z) :
  bool_decide (200 ≤ status)%Z && bool_decide (status < 300)%Z = true
  ↔ (200 ≤ status < 300)%Z.
Proof.
  rewrite andb_true_iff, !bool_decide_eq_true. lia.
Qed.

(** C6, amended: for a request that the script sent, on any page data:
    while events of the other transports arrive in any number and with any
    outcome, the promise of transport [i] stays pending; the event of [i]
    then fulfils it with (parsed body, status text, transport) exactly when
    it is a load with a status in [200,300) whose body parses as JSON, and
    rejects it with (status, status text) on a load with any other status
    and on an error; no event of [i] changes any other promise. *)
Theorem C6_settlement `{Browser} d evs i r ev :
  xhrs (script (page_load d)).2 !! i = Some r → xhr_sent r = true →
  Forall (fun e => e.1 ≠ i) evs →
  let σ1 := deliver evs (script (page_load d)).2 in
  let σ2 := dispatch i ev σ1 in
  promises σ1 !! i = Some Pending
  ∧ (∀ body text x,
       promises σ2 !! i = Some (Fulfilled body text x)
       ↔ ∃ status response,
           ev = Loaded status text response ∧ (200 ≤ status < 300)%Z
           ∧ JSON.parse response = Some body ∧ x = i)
  ∧ (∀ status text response,
       ev = Loaded status text response → ¬ (200 ≤ status < 300)%Z →
       promises σ2 !! i = Some (Rejected (RStatus status text)))
  ∧ (∀ status text,
       ev = Errored status text →
       promises σ2 !! i = Some (Rejected (RStatus status text)))
  ∧ (∀ j, j ≠ i → promises σ2 !! j = promises σ1 !! j).
Proof.
  intros Hr0 Hsent Hevs σ1 σ2.
  destruct (sent_keeps_pending d evs i r Hr0 Hsent Hevs)
    as (Hpending & Hr & Hload & Herror).
  fold σ1 in Hpending, Hr.
  pose proof (dispatch_pending i ev σ1 r i Hr Hsent Hload Herror Hpending) as Hstep.
  fold σ2 in Hstep.
  split; [exact Hpending|]. split; [|split; [|split]].
  - intros body text x. rewrite Hstep. split.
    + destruct ev as [status text' response|status text']; [|done].
      destruct (bool_decide _ && bool_decide _) eqn:Hrange; [|done].
      apply in_range_dec in Hrange.
      destruct (JSON.parse response) as [body'|] eqn:Hparse; [|done].
      intros [= -> -> ->]. by exists status, response.
    + intros (status & response & -> & Hrange & Hparse & ->).
      apply in_range_dec in Hrange. by rewrite Hrange, Hparse.
  - intros status text response -> Hrange. rewrite Hstep.
    destruct (bool_decide _ && bool_decide _) eqn:Hb; [|done].
    by apply in_range_dec in Hb.
  - intros status text ->. by rewrite Hstep.
  - intros j Hj. apply dispatch_other. intros r' Hr'.
    rewrite Hr in Hr'. injection Hr' as <-. rewrite Hload, Herror. split; congruence.
Qed.

Lemma C6_settlement_witness :
  let headers :=
    [("sentry-trace", "771a43a4192642f0b136d5159a501700-b7ad6b7169203331-1");
     ("baggage", "sentry-environment=production,sentry-release=24.2.0")] in
  let r := Xhr (Some ("GET", "/api/0/organizations/acme/?detailed=0")) headers true
               (Some 0) (Some 0) true in
  let evs := [(1, Loaded 500 "Internal Server Error" "{}"); (2, Errored 0 "")] in
  let ev := Loaded 200 "OK" "[1, 2]" in
  let σ1 := deliver evs (script (page_load page_same_origin)).2 in
  let σ2 := dispatch 0 ev σ1 in
  (xhrs (script (page_load page_same_origin)).2 !! 0 = Some r ∧ xhr_sent r = true
   ∧ Forall (fun e => e.1 ≠ 0) evs)
  ∧ promises σ1 !! 0 = Some Pending
  ∧ (∀ body text x,
       promises σ2 !! 0 = Some (Fulfilled body text x)
       ↔ ∃ status response,
           ev = Loaded status text response ∧ (200 ≤ status < 300)%Z
           ∧ JSON.parse response = Some body ∧ x = 0)
  ∧ (∀ status text response,
       ev = Loaded status text response → ¬ (200 ≤ status < 300)%Z →
       promises σ2 !! 0 = Some (Rejected (RStatus status text)))
  ∧ (∀ status text,
       ev = Errored status text →
       promises σ2 !! 0 = Some (Rejected (RStatus status text)))
  ∧ (∀ j, j ≠ 0 → promises σ2 !! j = promises σ1 !! j).
Proof.
  intros headers r evs ev σ1 σ2.
  assert (Hevs : Forall (fun e : nat * event => e.1 ≠ 0) evs).
  { repeat apply Forall_cons_2; [cbn; lia..|apply Forall_nil_2]. }
  split.
  - split; [vm_compute; reflexivity|]. split; [reflexivity|exact Hevs].
  - apply (C6_settlement page_same_origin evs 0 r ev);
      [vm_compute; reflexivity|reflexivity|exact Hevs].
Defined.

(** C6 as stated fails: a load with status 200 whose body is not JSON
    rejects the promise. *)
Lemma C6_counterexample :
  (200 ≤ 200 < 300)%Z
  ∧ xhr_sent <$> xhrs (script (page_load page_same_origin)).2 !! 0 = Some true
  ∧ promises (dispatch 0 (Loaded 200 "OK" "<html>")
                (script (page_load page_same_origin)).2) !! 0
    = Some (Rejected RNone).
Proof. split; [lia|]. split; vm_compute; reflexivity. Qed.

(** C7, amended: for a request that the script sent, a load with a status
    in [200,300) whose body does not parse as JSON rejects the promise with
    no value at all, while a load with any other status rejects it with
    (status, status text); the two rejections differ, so a consumer can
    tell them apart. *)
Theorem C7_failure_shapes `{Browser} d evs i r status text response :
  xhrs (script (page_load d)).2 !! i = Some r → xhr_sent r = true →
  Forall (fun e => e.1 ≠ i) evs →
  let σ2 := dispatch i (Loaded status text response)
              (deliver evs (script (page_load d)).2) in
  ((200 ≤ status < 300)%Z → JSON.parse response = None →
     promises σ2 !! i = Some (Rejected RNone))
  ∧ (¬ (200 ≤ status < 300)%Z →
     promises σ2 !! i = Some (Rejected (RStatus status text)))
  ∧ Rejected RNone ≠ Rejected (RStatus status text).
Proof.
  intros Hr0 Hsent Hevs σ2.
  destruct (sent_keeps_pending d evs i r Hr0 Hsent Hevs)
    as (Hpending & Hr & Hload & Herror).
  pose proof (dispatch_pending i (Loaded status text response) _ r i
                Hr Hsent Hload Herror Hpending) as Hstep.
  fold σ2 in Hstep. rewrite Hstep. split; [|split].
  - intros Hrange%in_range_dec Hparse. by rewrite Hrange, Hparse.
  - intros Hrange. destruct (bool_decide _ && bool_decide _) eqn:Hb; [|done].
    by apply in_range_dec in Hb.
  - discriminate.
Qed.

Lemma C7_failure_shapes_witness :
  let headers :=
    [("sentry-trace", "771a43a4192642f0b136d5159a501700-b7ad6b7169203331-1");
     ("baggage", "sentry-environment=production,sentry-release=24.2.0")] in
  let r := Xhr (Some ("GET", "/api/0/organizations/acme/projects/?all_projects=1&collapse=latestDeploys&collapse=unusedFeatures"))
               headers true (Some 1) (Some 1) true in
  let σ2 := dispatch 1 (Loaded 204 "No Content" "")
              (deliver [(0, Errored 0 "")] (script (page_load page_same_origin)).2) in
  (xhrs (script (page_load page_same_origin)).2 !! 1 = Some r ∧ xhr_sent r = true
   ∧ Forall (fun e : nat * event => e.1 ≠ 1) [(0, Errored 0 "")])
  ∧ ((200 ≤ 204 < 300)%Z → JSON.parse "" = None →
       promises σ2 !! 1 = Some (Rejected RNone))
  ∧ (¬ (200 ≤ 204 < 300)%Z →
       promises σ2 !! 1 = Some (Rejected (RStatus 204 "No Content")))
  ∧ Rejected RNone ≠ Rejected (RStatus 204 "No Content").
Proof.
  intros headers r σ2.
  assert (Hevs : Forall (fun e : nat * event => e.1 ≠ 1) [(0, Errored 0 "")]).
  { repeat apply Forall_cons_2; [cbn; lia|apply Forall_nil_2]. }
  split.
  - split; [vm_compute; reflexivity|]. split; [reflexivity|exact Hevs].
  - apply (C7_failure_shapes page_same_origin [(0, Errored 0 "")] 1 r);
      [vm_compute; reflexivity|reflexivity|exact Hevs].
Defined.

(** C7 as stated fails: the rejection after a 200 whose body is not JSON is
    not the pair (200, status text) that a failed status gives. *)
Lemma C7_counterexample :
  let σ := (script (page_load page_same_origin)).2 in
  xhr_sent <$> xhrs σ !! 0 = Some true
  ∧ JSON.parse "<html>" = None
  ∧ promises (dispatch 0 (Loaded 200 "OK" "<html>") σ) !! 0 = Some (Rejected RNone)
  ∧ promises (dispatch 0 (Loaded 500 "Internal Server Error" "<html>") σ) !! 0
    = Some (Rejected (RStatus 500 "Internal Server Error"))
  ∧ Rejected RNone ≠ Rejected (RStatus 200 "OK").
Proof.
  split; [vm_compute; reflexivity|].
  split; [vm_compute; reflexivity|]. split; [vm_compute; reflexivity|].
  split; [vm_compute; reflexivity|]. discriminate.
Qed.

(** C8: after the script, and after any events, the registry holds none of
    the three logical keys or all three, each a promise of the page.  When
    the call returns on a page with a user and a resolved tenant, all three
    are there and none of the promises is fulfilled yet; with no user or no
    tenant none is there. *)
Theorem C8_all_or_nothing `{Browser} d evs :
  let σ0 := (script (page_load d)).2 in
  let σ := deliver evs σ0 in
  (registry_empty σ ∨ registry_populated σ)
  ∧ (∀ slug σ',
       __preloadData (page_load d) = (Ok (), σ') →
       authenticated d = true → slug_of d = Ok slug → truthy slug = true →
       registry_populated σ' ∧ Forall (fun s => is_fulfilled s = false) (promises σ'))
  ∧ (authenticated d = false ∨ (∃ slug, slug_of d = Ok slug ∧ truthy slug = false) →
     registry_empty σ0 ∧ registry_empty σ).
Proof.
  intros σ0 σ. subst σ σ0. rewrite script_run. cbn [snd].
  pose proof (outcome_registry d _ _ (preloadData_outcome d)) as Hout.
  destruct (__preloadData (page_load d)) as [r σ0]. cbn [fst snd] in *.
  split; [|split].
  - destruct Hout as [[Hempty _]|[Hfull _]].
    + left. by apply registry_empty_deliver.
    + right. by apply registry_populated_deliver.
  - intros slug σ' [= -> <-] Hauth Hslug Ht.
    destruct Hout as [[_ Hno]|(Hfull & _ & _ & _ & Hps)]; [|done].
    destruct (Hno eq_refl) as [?|(slug' & ? & ?)]; congruence.
  - intros Hno.
    destruct Hout as [[Hempty _]|(_ & _ & Hauth & (slug & Hslug & Ht) & _)].
    + split; [done|]. by apply registry_empty_deliver.
    + destruct Hno as [?|(slug' & ? & ?)]; congruence.
Qed.

Lemma C8_all_or_nothing_witness :
  let evs := [(2, Loaded 200 "OK" "[]"); (0, Loaded 503 "Service Unavailable" "")] in
  let σ0 := (script (page_load page_region)).2 in
  let σ := deliver evs σ0 in
  (registry_empty σ ∨ registry_populated σ)
  ∧ (∀ slug σ',
       __preloadData (page_load page_region) = (Ok (), σ') →
       authenticated page_region = true → slug_of page_region = Ok slug →
       truthy slug = true →
       registry_populated σ' ∧ Forall (fun s => is_fulfilled s = false) (promises σ'))
  ∧ (authenticated page_region = false
     ∨ (∃ slug, slug_of page_region = Ok slug ∧ truthy slug = false) →
     registry_empty σ0 ∧ registry_empty σ).
Proof. apply (C8_all_or_nothing page_region). Defined.

(** C9: whatever the page holds, the top-level script completes normally; an
    exception thrown by [__preloadData] is dropped and the page stays as the
    call left it. *)
Theorem C9_never_propagates `{Browser} σ0 :
  ∃ σ, script σ0 = (Ok (), σ)
    ∧ σ = (__preloadData σ0).2
    ∧ ∀ e σ', __preloadData σ0 = (Throw e, σ') → σ = σ'.
Proof.
  unfold script, try_catch.
  destruct (__preloadData σ0) as [[[]|e] σ']; exists σ'; repeat split; congruence.
Qed.

(** The exceptions C9 speaks of do occur: page data that is missing, and a
    tenant slug that cannot be converted to a string. *)
Example preloadData_throws :
  (__preloadData (page_load VUndef)).1 = Throw TypeError
  ∧ (__preloadData (page_load VNull)).1 = Throw TypeError
  ∧ (__preloadData (page_load page_bad_slug)).1 = Throw TypeError.
Proof. repeat split; vm_compute; reflexivity. Qed.

(** C10: with a user and no resolvable tenant slug, the call publishes a
    registry object that holds the key [orgSlug], with the absent slug as
    its value, and nothing else; with no user it publishes nothing. *)
Theorem C10_orgSlug_only `{Browser} d user :
  member d ["user"] = Ok user →
  (truthy user = true →
   ∀ slug, slug_of d = Ok slug → truthy slug = false →
     ∃ σ, __preloadData (page_load d) = (Ok (), σ)
       ∧ registry σ = Some {[ "orgSlug" := SVal slug ]})
  ∧ (truthy user = false →
     ∃ σ, __preloadData (page_load d) = (Ok (), σ)
       ∧ sentry_preload σ = None ∧ registry σ = None).
Proof.
  intros Huser.
  pose proof (preloadData_outcome d) as Hout.
  destruct (__preloadData (page_load d)) as [r σ]. cbn [fst snd] in *.
  assert (Hauth' : authenticated d = truthy user).
  { unfold authenticated. by rewrite Huser. }
  split.
  - intros Hu slug Hslug Ht. exists σ.
    inversion Hout as [Hd|user' Huser' Hu'|slug' Hauth Hslug' Ht'
                      |slug' host e Hauth Hslug' Ht' Hhost Hurl
                      |slug' xs s0 s1 s2 n Hauth Hslug' Ht' Hs0 Hs1 Hs2]; subst;
      try congruence.
    assert (slug' = slug) as -> by congruence. done.
  - intros Hu. exists σ.
    inversion Hout as [Hd|user' Huser' Hu'|slug' Hauth Hslug' Ht'
                      |slug' host e Hauth Hslug' Ht' Hhost Hurl
                      |slug' xs s0 s1 s2 n Hauth Hslug' Ht' Hs0 Hs1 Hs2]; subst;
      try congruence.
    done.
Qed.

Lemma C10_orgSlug_only_witness :
  member page_no_tenant ["user"] = Ok (VObj {[ "id" := VStr "1" ]})
  ∧ (truthy (VObj {[ "id" := VStr "1" ]}) = true →
     ∀ slug, slug_of page_no_tenant = Ok slug → truthy slug = false →
       ∃ σ, __preloadData (page_load page_no_tenant) = (Ok (), σ)
         ∧ registry σ = Some {[ "orgSlug" := SVal slug ]})
  ∧ (truthy (VObj {[ "id" := VStr "1" ]}) = false →
     ∃ σ, __preloadData (page_load page_no_tenant) = (Ok (), σ)
       ∧ sentry_preload σ = None ∧ registry σ = None).
Proof.
  split; [vm_compute; reflexivity|].
  apply (C10_orgSlug_only page_no_tenant). vm_compute; reflexivity.
Defined.

(** ** Further properties of the script *)



Lemma member_2_inv d k1 k2 v :
  member d [k1; k2] = Ok v → ∃ w, member d [k1] = Ok w ∧ get w k2 = Ok v.
Proof.
  rewrite member_1. cbn [member]. destruct (get d k1) as [w|]; [|done].
  rewrite res_Ok_bind. destruct (get w k2) as [v'|] eqn:Hw; [|done].
  rewrite !res_Ok_bind. intros [= <-]. eauto.
Qed.

Lemma get_string_truthy w k s : get w k = Ok (VStr s) → truthy w = true.
Proof. by destruct w. Qed.

(** X2: a region host that is a string other than the default host prefixes
    the three URLs, where these parse and the trace fields make header
    values. *)
Theorem region_host_prefixes_urls `{Browser} d tenantSlug region default
    sentry_trace baggage :
  authenticated d = true → slug_of d = Ok (VStr tenantSlug) → tenantSlug ≠ "" →
  member d ["links"; "regionUrl"] = Ok (VStr region) →
  member d ["links"; "sentryUrl"] = Ok default →
  default ≠ VStr region →
  url_parses (((region +:+ "/api/0/organizations/") +:+ tenantSlug) +:+ "/?detailed=0")
  = true →
  trace_header d "sentry_trace" = Ok sentry_trace →
  trace_header d "baggage" = Ok baggage →
  ∃ σ, __preloadData (page_load d) = (Ok (), σ)
    ∧ req_url <$> network σ =
        (fun suffix => ((region +:+ "/api/0/organizations/") +:+ tenantSlug) +:+ suffix)
          <$> suffixes.
Proof.
  intros Hauth Hslug Hne Hregion Hdefault Hdiff Hurl Hst Hbg.
  destruct (member_2_inv _ _ _ _ Hregion) as (links & Hlinks & Hr).
  destruct (member_2_inv _ _ _ _ Hdefault) as (links' & Hlinks' & Hs).
  assert (links' = links) as -> by congruence.
  assert (Hhost : host_of d = Ok (VStr region)).
  { rewrite (host_of_links d links (VStr region) default Hlinks
               (get_string_truthy _ _ _ Hr) Hr Hs).
    unfold strict_neq. destruct default; try done.
    cbn. case_bool_decide; [congruence|done]. }
  eexists. split.
  - apply (preloadData_sent d (VStr tenantSlug) (VStr region) region tenantSlug
             sentry_trace baggage); try done.
    cbn. by case_bool_decide.
  - reflexivity.
Qed.

Lemma region_host_prefixes_urls_witness :
  (authenticated page_region = true ∧ slug_of page_region = Ok (VStr "acme")
   ∧ "acme" ≠ ""
   ∧ member page_region ["links"; "regionUrl"] = Ok (VStr "https://us.sentry.io")
   ∧ member page_region ["links"; "sentryUrl"] = Ok (VStr "https://sentry.io")
   ∧ VStr "https://sentry.io" ≠ VStr "https://us.sentry.io"
   ∧ url_parses ((("https://us.sentry.io" +:+ "/api/0/organizations/") +:+ "acme")
                  +:+ "/?detailed=0") = true
   ∧ trace_header page_region "sentry_trace"
     = Ok "771a43a4192642f0b136d5159a501700-b7ad6b7169203331-1"
   ∧ trace_header page_region "baggage"
     = Ok "sentry-environment=production,sentry-release=24.2.0")
  ∧ ∃ σ, __preloadData (page_load page_region) = (Ok (), σ)
      ∧ req_url <$> network σ =
          (fun suffix => (("https://us.sentry.io" +:+ "/api/0/organizations/") +:+ "acme")
                         +:+ suffix) <$> suffixes.
Proof.
  split.
  - split; [vm_compute; reflexivity|]. split; [vm_compute; reflexivity|].
    split; [discriminate|]. split; [vm_compute; reflexivity|].
    split; [vm_compute; reflexivity|]. split; [discriminate|].
    split; [vm_compute; reflexivity|].
    split; vm_compute; reflexivity.
  - apply (region_host_prefixes_urls page_region "acme" "https://us.sentry.io"
             (VStr "https://sentry.io")
             "771a43a4192642f0b136d5159a501700-b7ad6b7169203331-1"
             "sentry-environment=production,sentry-release=24.2.0");
      first [discriminate | vm_compute; reflexivity].
Defined.

(** X3: with no links object, or with a region host that is identical to the
    default host, the three URLs are the bare paths, where these parse and
    the trace fields make header values: the requests are relative to the
    page's origin. *)
Theorem same_origin_urls `{Browser} d tenantSlug links sentry_trace baggage :
  authenticated d = true → slug_of d = Ok (VStr tenantSlug) → tenantSlug ≠ "" →
  member d ["links"] = Ok links →
  truthy links = false
  ∨ (∃ region default,
       get links "regionUrl" = Ok region ∧ get links "sentryUrl" = Ok default
       ∧ strict_eq region default = true) →
  url_parses ("/api/0/organizations/" +:+ (tenantSlug +:+ "/?detailed=0")) = true →
  trace_header d "sentry_trace" = Ok sentry_trace →
  trace_header d "baggage" = Ok baggage →
  ∃ σ, __preloadData (page_load d) = (Ok (), σ)
    ∧ req_url <$> network σ =
        (fun suffix => "/api/0/organizations/" +:+ (tenantSlug +:+ suffix)) <$> suffixes.
Proof.
  intros Hauth Hslug Hne Hlinks Hcase Hurl Hst Hbg.
  assert (Hhost : host_of d = Ok (VStr "")).
  { destruct Hcase as [Hfalsy|(region & default & Hr & Hs & Heq)].
    - by apply (host_of_no_links d links).
    - destruct (truthy links) eqn:Ht; [|by apply (host_of_no_links d links)].
      rewrite (host_of_links d links region default Hlinks Ht Hr Hs).
      unfold strict_neq. by rewrite Heq. }
  eexists. split.
  - apply (preloadData_sent d (VStr tenantSlug) (VStr "") "" tenantSlug
             sentry_trace baggage); try done.
    cbn. by case_bool_decide.
  - reflexivity.
Qed.

Lemma same_origin_urls_witness :
  (authenticated page_same_origin = true ∧ slug_of page_same_origin = Ok (VStr "acme")
   ∧ "acme" ≠ ""
   ∧ member page_same_origin ["links"]
     = Ok (VObj {[ "regionUrl" := VStr "https://sentry.io";
                   "sentryUrl" := VStr "https://sentry.io" ]})
   ∧ url_parses ("/api/0/organizations/" +:+ ("acme" +:+ "/?detailed=0")) = true
   ∧ trace_header page_same_origin "sentry_trace"
     = Ok "771a43a4192642f0b136d5159a501700-b7ad6b7169203331-1"
   ∧ trace_header page_same_origin "baggage"
     = Ok "sentry-environment=production,sentry-release=24.2.0")
  ∧ ∃ σ, __preloadData (page_load page_same_origin) = (Ok (), σ)
      ∧ req_url <$> network σ =
          (fun suffix => "/api/0/organizations/" +:+ ("acme" +:+ suffix)) <$> suffixes.
Proof.
  split.
  - split; [vm_compute; reflexivity|]. split; [vm_compute; reflexivity|].
    split; [discriminate|]. split; [vm_compute; reflexivity|].
    split; [vm_compute; reflexivity|].
    split; vm_compute; reflexivity.
  - apply (same_origin_urls page_same_origin "acme"
             (VObj {[ "regionUrl" := VStr "https://sentry.io";
                      "sentryUrl" := VStr "https://sentry.io" ]})
             "771a43a4192642f0b136d5159a501700-b7ad6b7169203331-1"
             "sentry-environment=production,sentry-release=24.2.0");
      [vm_compute; reflexivity|vm_compute; reflexivity|discriminate|vm_compute; reflexivity
      | |vm_compute; reflexivity|vm_compute; reflexivity|vm_compute; reflexivity].
    right. exists (VStr "https://sentry.io"), (VStr "https://sentry.io").
    split; [vm_compute; reflexivity|]. split; vm_compute; reflexivity.
Defined.



(** X5: a slug or a host that cannot be converted to a string makes the call
    throw while it builds the first URL: the registry is already published
    with the slug, no transport and no promise exist, nothing was sent, and
    the top-level script ends normally in that page. *)
Theorem unconvertible_url_throws_early `{Browser} d slug host e :
  authenticated d = true → slug_of d = Ok slug → truthy slug = true →
  host_of d = Ok host → makeUrl host slug "/?detailed=0" = Throw e →
  let σ := Page d (Some 0) [ {[ "orgSlug" := SVal slug ]} ] [] [] [] in
  __preloadData (page_load d) = (Throw e, σ)
  ∧ script (page_load d) = (Ok (), σ)
  ∧ registry_empty σ.
Proof.
  intros Hauth Hslug Ht Hhost Hurl σ.
  destruct (unconvertible_url_throws_early_run d slug host e) as [H1 H2]; try done.
  split; [exact H1|]. split; [exact H2|]. apply orgSlug_only_empty.
Qed.

Lemma unconvertible_url_throws_early_witness :
  let host := VObj {[ "toString" := VNull ]} in
  let σ := Page page_bad_host (Some 0) [ {[ "orgSlug" := SVal (VStr "acme") ]} ] [] [] [] in
  (authenticated page_bad_host = true ∧ slug_of page_bad_host = Ok (VStr "acme")
   ∧ truthy (VStr "acme") = true ∧ host_of page_bad_host = Ok host
   ∧ makeUrl host (VStr "acme") "/?detailed=0" = Throw TypeError)
  ∧ __preloadData (page_load page_bad_host) = (Throw TypeError, σ)
  ∧ script (page_load page_bad_host) = (Ok (), σ)
  ∧ registry_empty σ.
Proof.
  split.
  - split; [vm_compute; reflexivity|]. split; [vm_compute; reflexivity|].
    split; [vm_compute; reflexivity|]. split; vm_compute; reflexivity.
  - apply (unconvertible_url_throws_early page_bad_host (VStr "acme")
             (VObj {[ "toString" := VNull ]}) TypeError); vm_compute; reflexivity.
Defined.

(** X7: the handlers change promise states and nothing else: whatever events
    arrive, the page data, the published registry object, the transports
    and the requests handed to the network stay as they were, and no promise
    is created or dropped. *)
Theorem events_touch_promises_only σ evs :
  let σ' := deliver evs σ in
  initialData σ' = initialData σ ∧ sentry_preload σ' = sentry_preload σ
  ∧ objects σ' = objects σ ∧ xhrs σ' = xhrs σ ∧ network σ' = network σ
  ∧ length (promises σ') = length (promises σ)
  ∧ ∀ k, registry_get σ' k = registry_get σ k.
Proof.
  intros σ'. subst σ'.
  destruct (deliver_frame evs σ) as (H1 & H2 & H3 & H4 & H5 & H6).
  repeat (split; [assumption|]). intros k. apply registry_get_deliver.
Qed.

Lemma settle_completes p s σ :
  ∃ σ', settle p s σ = (Ok (), σ')
    ∧ xhrs σ' = xhrs σ ∧ network σ' = network σ ∧ objects σ' = objects σ
    ∧ ∀ j, j ≠ p → promises σ' !! j = promises σ !! j.
Proof.
  exists (settle p s σ).2. split; [reflexivity|].
  destruct (settle_frame p s σ) as (_ & _ & Ho & Hx & Hn & _).
  repeat (split; [assumption|]).
  intros j Hj. rewrite settle_lookup. by rewrite decide_False.
Qed.

(** X8: the load handler never lets an exception escape: whatever the status
    and the body, also one that [JSON.parse] refuses, it completes normally,
    and it leaves the transports, the network, the registry and every
    promise but its own as they were. *)
Theorem onload_completes_normally x p status text response σ :
  ∃ σ', onload x p status text response σ = (Ok (), σ')
    ∧ xhrs σ' = xhrs σ ∧ network σ' = network σ ∧ objects σ' = objects σ
    ∧ ∀ j, j ≠ p → promises σ' !! j = promises σ !! j.
Proof. rewrite onload_settles. apply settle_completes. Qed.

(** X9: where the three requests are sent, each key of the registry awaits
    its own request: the promise under the i-th logical key is the one that
    the handlers of the i-th transport settle, and that transport was
    opened on, and sent to, the URL with the i-th suffix. *)
Theorem each_key_awaits_its_request `{Browser} d slug host apiHost tenantSlug
    sentry_trace baggage :
  authenticated d = true → slug_of d = Ok slug → truthy slug = true →
  host_of d = Ok host → to_string host = Ok apiHost → to_string slug = Ok tenantSlug →
  url_parses (((apiHost +:+ "/api/0/organizations/") +:+ tenantSlug) +:+ "/?detailed=0")
  = true →
  trace_header d "sentry_trace" = Ok sentry_trace →
  trace_header d "baggage" = Ok baggage →
  ∃ σ, __preloadData (page_load d) = (Ok (), σ)
    ∧ ∀ i k suffix,
        logical_keys !! i = Some k → suffixes !! i = Some suffix →
        let url := ((apiHost +:+ "/api/0/organizations/") +:+ tenantSlug) +:+ suffix in
        registry_get σ k = Some (SPromise i)
        ∧ promises σ !! i = Some Pending
        ∧ (∃ r, xhrs σ !! i = Some r ∧ xhr_opened r = Some ("GET", url)
                ∧ xhr_onload r = Some i ∧ xhr_onerror r = Some i ∧ xhr_sent r = true)
        ∧ (req_url <$> network σ) !! i = Some url.
Proof.
  intros Hauth Hslug Ht Hhost HapiHost HtenantSlug Hurl Hst Hbg.
  eexists. split.
  { by apply (preloadData_sent d slug host apiHost tenantSlug sentry_trace baggage). }
  intros [|[|[|i]]] k suffix; cbn [logical_keys suffixes lookup list_lookup];
    intros [= <-] [= <-]; rewrite registry_get_published.
  - split; [|split; [reflexivity|split; [eexists; by repeat split|reflexivity]]].
    rewrite lookup_insert_ne by done. rewrite lookup_insert_ne by done.
    by rewrite lookup_insert_eq.
  - split; [|split; [reflexivity|split; [eexists; by repeat split|reflexivity]]].
    rewrite lookup_insert_ne by done. by rewrite lookup_insert_eq.
  - split; [|split; [reflexivity|split; [eexists; by repeat split|reflexivity]]].
    by rewrite lookup_insert_eq.
Qed.

Lemma each_key_awaits_its_request_witness :
  (authenticated page_region = true ∧ slug_of page_region = Ok (VStr "acme")
   ∧ truthy (VStr "acme") = true ∧ host_of page_region = Ok (VStr "https://us.sentry.io")
   ∧ to_string (VStr "https://us.sentry.io") = Ok "https://us.sentry.io"
   ∧ to_string (VStr "acme") = Ok "acme"
   ∧ url_parses ((("https://us.sentry.io" +:+ "/api/0/organizations/") +:+ "acme")
                  +:+ "/?detailed=0") = true
   ∧ trace_header page_region "sentry_trace"
     = Ok "771a43a4192642f0b136d5159a501700-b7ad6b7169203331-1"
   ∧ trace_header page_region "baggage"
     = Ok "sentry-environment=production,sentry-release=24.2.0")
  ∧ ∃ σ, __preloadData (page_load page_region) = (Ok (), σ)
      ∧ ∀ i k suffix,
          logical_keys !! i = Some k → suffixes !! i = Some suffix →
          let url := (("https://us.sentry.io" +:+ "/api/0/organizations/") +:+ "acme")
                     +:+ suffix in
          registry_get σ k = Some (SPromise i)
          ∧ promises σ !! i = Some Pending
          ∧ (∃ r, xhrs σ !! i = Some r ∧ xhr_opened r = Some ("GET", url)
                  ∧ xhr_onload r = Some i ∧ xhr_onerror r = Some i ∧ xhr_sent r = true)
          ∧ (req_url <$> network σ) !! i = Some url.
Proof.
  split.
  - split; [vm_compute; reflexivity|]. split; [vm_compute; reflexivity|].
    split; [vm_compute; reflexivity|]. split; [vm_compute; reflexivity|].
    split; [vm_compute; reflexivity|]. split; [vm_compute; reflexivity|].
    split; [vm_compute; reflexivity|].
    split; vm_compute; reflexivity.
  - apply (each_key_awaits_its_request page_region (VStr "acme")
             (VStr "https://us.sentry.io") "https://us.sentry.io" "acme"
             "771a43a4192642f0b136d5159a501700-b7ad6b7169203331-1"
             "sentry-environment=production,sentry-release=24.2.0");
      vm_compute; reflexivity.
Defined.

(** X10: whenever a user is present, the key [orgSlug] of the registry holds
    the resolved slug: also when the slug is absent, when building the URLs
    throws, and after any events. *)
Theorem orgSlug_always_published `{Browser} d evs :
  authenticated d = true →
  ∃ slug, slug_of d = Ok slug
    ∧ registry_get (deliver evs (script (page_load d)).2) "orgSlug" = Some (SVal slug).
Proof.
  intros Hauth. rewrite script_run, registry_get_deliver.
  pose proof (preloadData_outcome d) as Hout.
  destruct (__preloadData (page_load d)) as [r σ]. cbn [fst snd] in *.
  inversion Hout as [Hd|user Huser Hu|slug _ Hslug Ht|slug host e _ Hslug Ht Hhost Hurl
                    |slug xs s0 s1 s2 n _ Hslug Ht Hs0 Hs1 Hs2]; subst.
  - unfold authenticated in Hauth. by rewrite Hd in Hauth.
  - unfold authenticated in Hauth. rewrite Huser in Hauth. congruence.
  - exists slug. split; [done|]. rewrite registry_get_published.
    apply lookup_singleton_eq.
  - exists slug. split; [done|]. rewrite registry_get_published.
    apply lookup_singleton_eq.
  - exists slug. split; [done|]. rewrite registry_get_published.
    rewrite lookup_insert_ne by done. rewrite lookup_insert_ne by done.
    rewrite lookup_insert_ne by done. apply lookup_singleton_eq.
Qed.

Lemma orgSlug_always_published_witness :
  let evs := [(0, Loaded 200 "OK" "{}")] in
  authenticated page_bad_host = true
  ∧ ∃ slug, slug_of page_bad_host = Ok slug
      ∧ registry_get (deliver evs (script (page_load page_bad_host)).2) "orgSlug"
        = Some (SVal slug).
Proof.
  split; [vm_compute; reflexivity|].
  apply (orgSlug_always_published page_bad_host). vm_compute; reflexivity.
Defined.

Lemma append_inj_l (a x y : string) : a +:+ x = a +:+ y → x = y.
Proof. induction a as [|c a IH]; cbn; [done|]. intros [= H]. by apply IH. Qed.

(** X11: where the three requests are sent, the three URL strings that the
    script passes to [open] are pairwise different. *)
Theorem request_urls_distinct `{Browser} d slug host apiHost tenantSlug
    sentry_trace baggage :
  authenticated d = true → slug_of d = Ok slug → truthy slug = true →
  host_of d = Ok host → to_string host = Ok apiHost → to_string slug = Ok tenantSlug →
  url_parses (((apiHost +:+ "/api/0/organizations/") +:+ tenantSlug) +:+ "/?detailed=0")
  = true →
  trace_header d "sentry_trace" = Ok sentry_trace →
  trace_header d "baggage" = Ok baggage →
  ∃ σ, __preloadData (page_load d) = (Ok (), σ)
    ∧ length (network σ) = 3
    ∧ NoDup (req_url <$> network σ).
Proof.
  intros Hauth Hslug Ht Hhost HapiHost HtenantSlug Hurl Hst Hbg.
  eexists. split.
  { by apply (preloadData_sent d slug host apiHost tenantSlug sentry_trace baggage). }
  split; [reflexivity|]. cbn [network fmap list_fmap suffixes req_url].
  repeat apply NoDup_cons_2; try apply NoDup_nil_2;
    rewrite ?elem_of_cons, ?elem_of_nil;
    intros Hin; repeat destruct Hin as [Hin|Hin]; try done;
    apply append_inj_l in Hin; discriminate.
Qed.

Lemma request_urls_distinct_witness :
  (authenticated page_region = true ∧ slug_of page_region = Ok (VStr "acme")
   ∧ truthy (VStr "acme") = true ∧ host_of page_region = Ok (VStr "https://us.sentry.io")
   ∧ to_string (VStr "https://us.sentry.io") = Ok "https://us.sentry.io"
   ∧ to_string (VStr "acme") = Ok "acme"
   ∧ url_parses ((("https://us.sentry.io" +:+ "/api/0/organizations/") +:+ "acme")
                  +:+ "/?detailed=0") = true
   ∧ trace_header page_region "sentry_trace"
     = Ok "771a43a4192642f0b136d5159a501700-b7ad6b7169203331-1"
   ∧ trace_header page_region "baggage"
     = Ok "sentry-environment=production,sentry-release=24.2.0")
  ∧ ∃ σ, __preloadData (page_load page_region) = (Ok (), σ)
      ∧ length (network σ) = 3
      ∧ NoDup (req_url <$> network σ).
Proof.
  split.
  - split; [vm_compute; reflexivity|]. split; [vm_compute; reflexivity|].
    split; [vm_compute; reflexivity|]. split; [vm_compute; reflexivity|].
    split; [vm_compute; reflexivity|]. split; [vm_compute; reflexivity|].
    split; [vm_compute; reflexivity|].
    split; vm_compute; reflexivity.
  - apply (request_urls_distinct page_region (VStr "acme")
             (VStr "https://us.sentry.io") "https://us.sentry.io" "acme"
             "771a43a4192642f0b136d5159a501700-b7ad6b7169203331-1"
             "sentry-environment=production,sentry-release=24.2.0");
      vm_compute; reflexivity.
Defined.

(** X12: for every page data whatsoever, also malformed, the script creates
    no transport at all or exactly three, as many promises as transports,
    and hands the network nothing or exactly three requests; it never
    changes [window.__initialData]. *)
Theorem none_or_three `{Browser} d :
  let σ := (script (page_load d)).2 in
  initialData σ = d
  ∧ ((xhrs σ = [] ∧ promises σ = [] ∧ network σ = [])
     ∨ (length (xhrs σ) = 3 ∧ length (promises σ) = 3
        ∧ (network σ = [] ∨ length (network σ) = 3))).
Proof.
  intros σ. destruct (script_shape d) as (Hdata & Hcount & _ & _).
  split; [exact Hdata|exact Hcount].
Qed.

(** X13: a last-used tenant that is absent, [null] or the empty string gives
    way to the customer domain: its subdomain is published under [orgSlug]
    and, where the URLs parse and the trace fields make header values, is
    the tenant of the three URLs. *)
Theorem customer_domain_fallback `{Browser} d last subdomain host apiHost
    sentry_trace baggage :
  authenticated d = true →
  member d ["lastOrganization"] = Ok last → truthy last = false →
  member d ["customerDomain"; "subdomain"] = Ok (VStr subdomain) → subdomain ≠ "" →
  host_of d = Ok host → to_string host = Ok apiHost →
  url_parses (((apiHost +:+ "/api/0/organizations/") +:+ subdomain) +:+ "/?detailed=0")
  = true →
  trace_header d "sentry_trace" = Ok sentry_trace →
  trace_header d "baggage" = Ok baggage →
  ∃ σ, __preloadData (page_load d) = (Ok (), σ)
    ∧ slug_of d = Ok (VStr subdomain)
    ∧ registry_get σ "orgSlug" = Some (SVal (VStr subdomain))
    ∧ req_url <$> network σ =
        (fun suffix => ((apiHost +:+ "/api/0/organizations/") +:+ subdomain) +:+ suffix)
          <$> suffixes.
Proof.
  intros Hauth Hlast Hfalsy Hsub Hne Hhost HapiHost Hurl Hst Hbg.
  destruct (member_2_inv _ _ _ _ Hsub) as (cd & Hcd & Hget).
  assert (Hslug : slug_of d = Ok (VStr subdomain)).
  { unfold slug_of. rewrite Hlast, res_Ok_bind, Hfalsy. cbn [negb].
    rewrite Hcd, res_Ok_bind, (get_string_truthy _ _ _ Hget). exact Hsub. }
  eexists. split.
  - apply (preloadData_sent d (VStr subdomain) host apiHost subdomain sentry_trace baggage);
      try done.
    cbn. by case_bool_decide.
  - split; [done|]. split; [|reflexivity].
    rewrite registry_get_published.
    rewrite lookup_insert_ne by done. rewrite lookup_insert_ne by done.
    rewrite lookup_insert_ne by done. apply lookup_singleton_eq.
Qed.

Lemma customer_domain_fallback_witness :
  (authenticated page_empty_last = true
   ∧ member page_empty_last ["lastOrganization"] = Ok (VStr "")
   ∧ truthy (VStr "") = false
   ∧ member page_empty_last ["customerDomain"; "subdomain"] = Ok (VStr "globex")
   ∧ "globex" ≠ ""
   ∧ host_of page_empty_last = Ok (VStr "") ∧ to_string (VStr "") = Ok ""
   ∧ url_parses ((("" +:+ "/api/0/organizations/") +:+ "globex") +:+ "/?detailed=0") = true
   ∧ trace_header page_empty_last "sentry_trace"
     = Ok "771a43a4192642f0b136d5159a501700-b7ad6b7169203331-1"
   ∧ trace_header page_empty_last "baggage"
     = Ok "sentry-environment=production,sentry-release=24.2.0")
  ∧ ∃ σ, __preloadData (page_load page_empty_last) = (Ok (), σ)
      ∧ slug_of page_empty_last = Ok (VStr "globex")
      ∧ registry_get σ "orgSlug" = Some (SVal (VStr "globex"))
      ∧ req_url <$> network σ =
          (fun suffix => (("" +:+ "/api/0/organizations/") +:+ "globex") +:+ suffix)
            <$> suffixes.
Proof.
  split.
  - split; [vm_compute; reflexivity|]. split; [vm_compute; reflexivity|].
    split; [vm_compute; reflexivity|]. split; [vm_compute; reflexivity|].
    split; [discriminate|]. split; [vm_compute; reflexivity|].
    split; [vm_compute; reflexivity|]. split; [vm_compute; reflexivity|].
    split; vm_compute; reflexivity.
  - apply (customer_domain_fallback page_empty_last (VStr "") "globex" (VStr "") ""
             "771a43a4192642f0b136d5159a501700-b7ad6b7169203331-1"
             "sentry-environment=production,sentry-release=24.2.0");
      first [discriminate | vm_compute; reflexivity].
Defined.

(** X14: whatever the page data, the host prefix is the empty string or the
    value of [links.regionUrl], and in the second case that value is not
    identical to [links.sentryUrl]: the default host is never used as a
    prefix. *)
Theorem host_is_empty_or_region d host :
  host_of d = Ok host →
  host = VStr ""
  ∨ ∃ links default,
      member d ["links"] = Ok links ∧ truthy links = true
      ∧ get links "regionUrl" = Ok host ∧ get links "sentryUrl" = Ok default
      ∧ strict_eq host default = false.
Proof.
  unfold host_of.
  destruct (member d ["links"]) as [links|] eqn:Hlinks; [|done].
  rewrite res_Ok_bind.
  destruct (truthy links) eqn:Ht; [|intros [= <-]; by left].
  rewrite member_1 in Hlinks. rewrite !(member_2 _ _ _ _ Hlinks).
  destruct (truthy_defined links Ht) as [Hl1 Hl2].
  destruct (get_defined links "regionUrl" Hl1 Hl2) as [region Hr].
  destruct (get_defined links "sentryUrl" Hl1 Hl2) as [default Hs].
  rewrite Hr, Hs, !res_Ok_bind. unfold strict_neq.
  destruct (strict_eq region default) eqn:Heq; cbn [negb]; intros [= <-]; [by left|].
  right. exists links, default. by repeat split.
Qed.

Lemma host_is_empty_or_region_witness :
  host_of page_region_absent = Ok VUndef
  ∧ (VUndef = VStr ""
     ∨ ∃ links default,
         member page_region_absent ["links"] = Ok links ∧ truthy links = true
         ∧ get links "regionUrl" = Ok VUndef ∧ get links "sentryUrl" = Ok default
         ∧ strict_eq VUndef default = false).
Proof.
  split; [vm_compute; reflexivity|].
  apply (host_is_empty_or_region page_region_absent). vm_compute; reflexivity.
Defined.

(** *** The order of completion *)

Lemma settle_commute x y s s' σ :
  x ≠ y →
  (settle x s (settle y s' σ).2).2 = (settle y s' (settle x s σ).2).2.
Proof.
  intros Hxy. destruct σ as [d sp os xs ps n].
  unfold settle, modify, with_promises. cbn [snd promises initialData sentry_preload
    objects xhrs network].
  destruct (ps !! x) as [[| |]|] eqn:Hx; destruct (ps !! y) as [[| |]|] eqn:Hy;
    cbn [snd promises initialData sentry_preload objects xhrs network];
    rewrite ?Hx, ?Hy;
    rewrite ?list_lookup_insert_ne by done; rewrite ?Hx, ?Hy;
    cbn [snd promises initialData sentry_preload objects xhrs network];
    try reflexivity.
  f_equal. by apply list_insert_insert_ne.
Qed.

(** On a page whose handlers close over the promise of their own transport,
    an event of transport [x] does nothing or settles promise [x], and which
    of the two depends on the transports alone. *)
Lemma dispatch_settles_own x ev σ :
  (∀ r p, xhrs σ !! x = Some r →
     (xhr_onload r = Some p → p = x) ∧ (xhr_onerror r = Some p → p = x)) →
  (∀ σ', xhrs σ' = xhrs σ → dispatch x ev σ' = σ')
  ∨ ∃ s, ∀ σ', xhrs σ' = xhrs σ → dispatch x ev σ' = (settle x s σ').2.
Proof.
  intros Hwired. unfold dispatch.
  destruct (xhrs σ !! x) as [r|] eqn:Hx; [|left; by intros σ' ->; rewrite Hx].
  destruct (xhr_sent r) eqn:Hsent; [|left; by intros σ' ->; rewrite Hx, Hsent].
  destruct ev as [status text response|status text].
  - destruct (xhr_onload r) as [p|] eqn:Hp;
      [|left; by intros σ' ->; rewrite Hx, Hsent, Hp].
    destruct (Hwired r p eq_refl) as [Hown _]. specialize (Hown Hp). subst p.
    right. eexists. intros σ' ->. rewrite Hx, Hsent, Hp. by rewrite onload_settles.
  - destruct (xhr_onerror r) as [p|] eqn:Hp;
      [|left; by intros σ' ->; rewrite Hx, Hsent, Hp].
    destruct (Hwired r p eq_refl) as [_ Hown]. specialize (Hown Hp). subst p.
    right. eexists. intros σ' ->. by rewrite Hx, Hsent, Hp.
Qed.

(** X15: the order in which two different transports complete does not matter:
    from any page the script and later events can produce, delivering the
    event of one and then the event of the other gives the same page as
    delivering them the other way round. *)
Theorem completion_order_irrelevant `{Browser} d evs x y ev ev' :
  x ≠ y →
  let σ := deliver evs (script (page_load d)).2 in
  dispatch x ev (dispatch y ev' σ) = dispatch y ev' (dispatch x ev σ).
Proof.
  intros Hxy σ.
  assert (Hwired : ∀ z r p, xhrs σ !! z = Some r →
            (xhr_onload r = Some p → p = z) ∧ (xhr_onerror r = Some p → p = z)).
  { subst σ. destruct (deliver_frame evs (script (page_load d)).2) as (_ & _ & _ & -> & _).
    by destruct (script_shape d) as (_ & _ & Hown & _). }
  assert (Hkeep : ∀ z e σ', xhrs (dispatch z e σ') = xhrs σ').
  { intros z e σ'. by destruct (dispatch_frame z e σ') as (_ & _ & _ & -> & _). }
  destruct (dispatch_settles_own x ev σ (Hwired x)) as [Hx|[s Hx]];
    destruct (dispatch_settles_own y ev' σ (Hwired y)) as [Hy|[s' Hy]].
  - by rewrite (Hy σ), (Hx σ), (Hy σ).
  - rewrite (Hx (dispatch y ev' σ)) by apply Hkeep. by rewrite (Hx σ).
  - rewrite (Hy (dispatch x ev σ)) by apply Hkeep. by rewrite (Hy σ).
  - rewrite (Hx (dispatch y ev' σ)) by apply Hkeep.
    rewrite (Hy (dispatch x ev σ)) by apply Hkeep.
    rewrite (Hx σ), (Hy σ) by done. by apply settle_commute.
Qed.

Lemma completion_order_irrelevant_witness :
  let σ := deliver [(2, Errored 0 "")] (script (page_load page_region)).2 in
  0 ≠ 1
  ∧ dispatch 0 (Loaded 200 "OK" "{}") (dispatch 1 (Loaded 502 "Bad Gateway" "") σ)
    = dispatch 1 (Loaded 502 "Bad Gateway" "") (dispatch 0 (Loaded 200 "OK" "{}") σ).
Proof.
  split; [discriminate|].
  apply (completion_order_irrelevant page_region [(2, Errored 0 "")] 0 1). discriminate.
Defined.

(** ** The priority dropdown *)

Section priority_actor.
Context {activity_type : Type} `{EqDecision activity_type}.
Variable SET_PRIORITY : activity_type.

(** X16: the placeholder is rendered exactly while nothing is known: no editor
    was passed in and the activities have not arrived.  Once either is
    there, a name is shown. *)
Theorem placeholder_only_while_loading incoming
    (data : option (@GroupPriority.response activity_type)) :
  GroupPriority.PriorityChangeActor SET_PRIORITY incoming data
    = GroupPriority.InlinePlaceholder
  ↔ incoming = None ∧ data = None.
Proof.
  unfold GroupPriority.PriorityChangeActor, GroupPriority.lastEditedBy.
  destruct incoming as [[|u]|]; [split; [done|by intros [? ?]]..|].
  destruct data as [r|]; [|done].
  split; [|by intros [? ?]].
  by destruct (_ ≫= _).
Qed.

(** X17: with no editor passed in, the first activity of type [SET_PRIORITY]
    alone decides the name: its user if it has one, and Sentry if it has
    none or if there is no such activity.  Activities of other types and
    anything after that first one are never consulted. *)
Theorem first_set_priority_decides
    (activities : list (@GroupPriority.Activity activity_type)) :
  GroupPriority.PriorityChangeActor SET_PRIORITY None
    (Some (GroupPriority.Build_response (Some activities)))
  = match filter (fun a => GroupPriority.type a = SET_PRIORITY) activities with
    | [] => GroupPriority.Sentry
    | a :: _ =>
        match GroupPriority.user a with
        | Some u => GroupPriority.UserName (GroupPriority.name u)
        | None => GroupPriority.Sentry
        end
    end.
Proof.
  unfold GroupPriority.PriorityChangeActor, GroupPriority.lastEditedBy.
  cbn [GroupPriority.activity mbind option_bind].
  induction activities as [|a activities IH]; [done|].
  cbn [List.find]. rewrite filter_cons.
  case_bool_decide as Ha.
  - rewrite decide_True by done. cbn. by destruct (GroupPriority.user a).
  - by rewrite decide_False.
Qed.

End priority_actor.

(** A later activity with a user does not help when the first one of the
    type has none. *)
Example first_set_priority_without_user :
  GroupPriority.PriorityChangeActor "set_priority" None
    (Some (GroupPriority.Build_response (Some
       [ GroupPriority.Build_Activity "note" (Some (GroupPriority.Build_AvatarUser "Ada"));
         GroupPriority.Build_Activity "set_priority" None;
         GroupPriority.Build_Activity "set_priority"
           (Some (GroupPriority.Build_AvatarUser "Grace")) ])))
  = GroupPriority.Sentry.
Proof. reflexivity. Qed.
